(** * Shoonya MCP server: a shallow embedding and its verified properties

    The development follows the two Python programs of the repository:

    - [src/mcp_server/app.py], a Flask gateway with a bearer-token
      decorator, an order endpoint guarded by risk limits, and mock
      market-data endpoints (module [App]);
    - [src/shoonya_mcp_agent/agent.py], the MCP agent with its live
      market-data resource and the broker connection tool (module [Agent]).

    Python values that travel through both programs are modelled in module
    [Py]: JSON scalars, Python's numeric tower restricted to [int] and
    [float] (binary64, through the Standard Library's [SpecFloat]), and the
    string operations the code calls. *)

From Stdlib Require Import ZArith String Ascii List Bool SpecFloat Lia.
From stdpp Require Import base gmap strings list option pretty.

Open Scope Z_scope.

(** ** Python values *)

Module Py.

(** Exceptions the modelled code can raise. *)
Inductive exn :=
| OverflowError   (* int too large to convert to float *)
| IndexError      (* list index out of range *)
| AttributeError  (* attribute access on None *)
| RuntimeError (message : string). (* raised by an external collaborator *)

(** JSON scalars as Python objects.  The members of the payloads that the
    modelled code reads are scalars; a JSON array is only read under the key
    [instruments] of the subscription body and is kept apart (see
    [App.Body]).  An array or object as the value of another member, which
    the set-membership tests of [place_order] could not hash, is outside the
    model. *)
Inductive pyval :=
| VNone
| VBool (b : bool)
| VInt (z : Z)
| VFloat (f : spec_float)
| VStr (s : string).

(** [dict.get(key)]: a missing key reads as [None]. *)
Definition get (d : gmap string pyval) (key : string) : pyval :=
default VNone (d !! key).

(** binary64 *)
Definition prec : Z := 53.
Definition emax : Z := 1024.
Definition fzero : spec_float := S754_zero false.
Definition fmul : spec_float -> spec_float -> spec_float := SFmul prec emax.

(** [float(z)] for a Python int: the nearest double, ties to even;
    [OverflowError] when the rounded value is not finite. *)
Definition float_of_int (z : Z) : result spec_float exn :=
match binary_normalize prec emax z 0 false with
| S754_infinity _ => Error OverflowError
| f => Ok f
end.

(** The double of an int that is known to convert (used for the constants
    the code compares floats with: CPython compares a float with an int of
    less than 49 bits by converting the int). *)
Definition float_of_small_int (z : Z) : spec_float :=
binary_normalize prec emax z 0 false.

(** The objects [isinstance(_, (int, float))] accepts. *)
Inductive number :=
| NInt (z : Z)
| NFloat (f : spec_float).

(** [isinstance(v, int)], with the integer read: [bool] is a subclass of
    [int] in Python, [True] is 1 and [False] is 0. *)
Definition as_int (v : pyval) : option Z :=
match v with
| VBool b => Some (Z.b2z b)
| VInt z => Some z
| _ => None
end.

(** [isinstance(v, (int, float))], with the number read. *)
Definition as_number (v : pyval) : option number :=
match v with
| VBool b => Some (NInt (Z.b2z b))
| VInt z => Some (NInt z)
| VFloat f => Some (NFloat f)
| _ => None
end.

(** Truth value of an object ([if v], [not v], [all([...])]). *)
Definition truthy (v : pyval) : bool :=
match v with
| VNone => false
| VBool b => b
| VInt z => negb (z =? 0)
| VFloat f => negb (SFeqb f fzero)
| VStr s => negb (String.eqb s "")
end.

(** [v == s] for a string literal [s]. *)
Definition eq_str (v : pyval) (s : string) : bool :=
match v with
| VStr s' => String.eqb s' s
| _ => false
end.

(** [v in {s1, s2, ...}] for a set of string literals. *)
Definition in_strs (v : pyval) (strs : list string) : bool :=
existsb (eq_str v) strs.

(** [x <= k] and [x > k] for an int constant [k] below 2^48. *)
Definition le_const (x : number) (k : Z) : bool :=
match x with
| NInt z => z <=? k
| NFloat f => SFleb f (float_of_small_int k)
end.

Definition gt_const (x : number) (k : Z) : bool :=
match x with
| NInt z => k <? z
| NFloat f => SFltb (float_of_small_int k) f
end.

(** [q * p] for an int [q]: exact when [p] is an int; when [p] is a float,
    [q] is converted first and the product is rounded to the nearest
    double. *)
Definition mul_int (q : Z) (p : number) : result number exn :=
match p with
| NInt z => Ok (NInt (q * z))
| NFloat f =>
    match float_of_int q with
    | Ok fq => Ok (NFloat (fmul fq f))
    | Error e => Error e
    end
end.

(** [str.isspace] on one character (code points below 256). *)
Definition isspace (c : ascii) : bool :=
let n := nat_of_ascii c in
((9 <=? n) && (n <=? 13) || (28 <=? n) && (n <=? 32) || (n =? 133) || (n =? 160))%nat.

(** Drop leading whitespace. *)
Fixpoint lstrip (s : string) : string :=
match s with
| EmptyString => EmptyString
| String c s' => if isspace c then lstrip s' else s
end.

(** The first whitespace-free word of [s] and what follows it. *)
Fixpoint span_word (s : string) : string * string :=
match s with
| EmptyString => (EmptyString, EmptyString)
| String c s' =>
    if isspace c then (EmptyString, s)
    else let '(w, rest) := span_word s' in (String c w, rest)
end.

(** [s.split(None, 1)]: at most one split on a run of whitespace; the
    remainder keeps its trailing whitespace. *)
Definition split_whitespace_1 (s : string) : list string :=
match lstrip s with
| EmptyString => []
| s1 =>
    let '(w, rest) := span_word s1 in
    match lstrip rest with
    | EmptyString => [w]
    | tail => [w; tail]
    end
end.

(** [s.split(sep)] for a one-character separator: every occurrence splits,
    so the result is never empty. *)
Fixpoint split_char (sep : ascii) (s : string) : list string :=
match s with
| EmptyString => [EmptyString]
| String c s' =>
    if Ascii.eqb c sep then EmptyString :: split_char sep s'
    else match split_char sep s' with
         | w :: ws => String c w :: ws
         | [] => [String c EmptyString]
         end
end.

(** [repr] of a float, which Python computes from the shortest decimal
    that reads back as the same double. *)
Class Repr := { float_repr : spec_float -> string }.

(** [str(v)] as an f-string interpolates it. *)
Definition str `{Repr} (v : pyval) : string :=
match v with
| VNone => "None"
| VBool true => "True"
| VBool false => "False"
| VInt z => pretty z
| VFloat f => float_repr f
| VStr s => s
end.

(** [l[i]]: [IndexError] out of range. *)
Definition index {A} (l : list A) (i : nat) : result A exn :=
match l !! i with
| Some x => Ok x
| None => Error IndexError
end.

End Py.

(** ** The Flask gateway, [src/mcp_server/app.py] *)

Module App.
Import Py.

(** What the program draws from outside: [uuid.uuid4()] and the [random]
    module that fills and perturbs the mock quotes; the [n]-th draw of a run
    is a function of [n].  [repr] of a float comes with it. *)
Class World := {
  Quote : Type;
  uuid4 : nat -> string;
  new_quote : pyval -> nat -> Quote;   (* the dict built at lines 70-78, from inst['exchange'] *)
  drift_quote : Quote -> nat -> Quote; (* one pass of lines 201-207 over a quote *)
  world_repr :: Repr
}.

(** Basic risk parameters. *)
Definition MAX_ORDER_QUANTITY : Z := 100000.
Definition MAX_ORDER_VALUE : Z := 5000000.

(** [ORDER_STATUSES] *)
Inductive order_status :=
| PENDING_SEND | SENT_TO_BROKER | OPEN | PARTIALLY_FILLED | FILLED
| CANCELLED | REJECTED_MCP | REJECTED_BROKER | ERROR.

(** Allowed order parameter values. *)
Definition ALLOWED_EXCHANGES : list string := ["NSE"; "NFO"; "CDS"; "BSE"; "MCX"].
Definition ALLOWED_ORDER_TYPES : list string := ["MARKET"; "LIMIT"; "SL"; "SL-M"].
Definition ALLOWED_TRANSACTION_TYPES : list string := ["BUY"; "SELL"].
Definition ALLOWED_PRODUCT_TYPES : list string := ["CNC"; "INTRADAY"; "NORMAL"; "MTF"].

Definition required_fields : list string :=
["symbol"; "exchange"; "quantity"; "order_type"; "transaction_type"; "product_type"].

(** The entries [place_order] appends to its [errors] list (the f-strings,
    with the values they interpolate). *)
Inductive order_error :=
| MissingOrderParameters (missing_fields : list string)
| InvalidExchange
| InvalidOrderType
| InvalidTransactionType
| InvalidProductType
| QuantityNotPositiveInteger
| QuantityExceedsMaximum (quantity : pyval)
| PriceNotPositive (order_type : pyval)
| OrderValueExceedsMaximum (order_value : number) (quantity price : pyval).

(** The [message] member of a reply. *)
Inductive message :=
| TokenMissing            (* Authentication token is missing or invalid format! *)
| TokenInvalid            (* Invalid or expired MCP session token! *)
| BodyMustBeJson          (* Request body must be JSON *)
| MissingCredentials
| ShoonyaAuthFailed (reason : string)
| AuthSuccessful
| ValidationErrors (errors : list order_error)   (* "; ".join(errors) *)
| BrokerMessage (text : string)
| OrderProcessingComplete
| InvalidInstrumentsList
| InvalidInstrumentFormat
| NoValidInstruments
| SubscribedTracking (newly_tracked total : nat)
| FailedShoonyaSubscribe (reason : string)
| NoActiveSubscriptions
| FetchedData (instruments : nat).

Section WithWorld.
Context {W : World}.

(** The dict given to [jsonify]; a member that the code does not set is
    [None]. *)
Record Reply := {
  status : string;
  reply_message : message;
  reply_order_status : option order_status;
  order_id : option string;
  session_token : option string;
  subscription_id : option string;
  data : option (list (string * Quote))
}.

Definition error_reply (m : message) : Reply :=
{| status := "error"; reply_message := m; reply_order_status := None;
   order_id := None; session_token := None; subscription_id := None;
   data := None |}.

Definition rejected_reply (m : message) : Reply :=
{| status := "error"; reply_message := m;
   reply_order_status := Some REJECTED_MCP;
   order_id := None; session_token := None; subscription_id := None;
   data := None |}.

(** What a view function gives back to Flask: a reply with its HTTP code, or
    an exception that nothing in the view catches. *)
Inductive outcome :=
| Response (reply : Reply) (code : nat)
| Unhandled (e : exn).

(** An element of the [instruments] array of a request body. *)
Inductive raw_instrument :=
| NotAnObject
| InstrumentObject (fields : gmap string pyval).

(** A JSON object as request body: its scalar members, and its
    [instruments] member when that is an array. *)
Record Body := {
  members : gmap string pyval;
  instruments : option (list raw_instrument)
}.

(** [json] is what [request.get_json()] returns, [None] when it is falsy
    for lack of an object. *)
Record Request := {
  authorization : option string;
  json : option Body
}.

Record Session := {
  username : pyval;
  client_id : pyval;
  shoonya_session_id : string
}.

(** Calls that reach the placeholder Shoonya functions, in order (a ghost
    log: the functions print their arguments). *)
Inductive broker_call :=
| LoginCall (username password client_id : pyval)
| PlaceOrderCall (shoonya_session_id : string) (order_details : Body)
| SubscribeCall (shoonya_session_id : string) (instruments : list (gmap string pyval)).

(** The in-memory stores.  [mock_market_data_store] keeps the insertion
    order of the Python dict, which the perturbation loop walks. *)
Record State := {
  active_sessions : gmap string Session;
  mock_market_data_store : list (string * Quote);
  client_subscriptions : gmap string (list string);
  draws : nat;
  broker_calls : list broker_call
}.

Definition initial_state : State :=
{| active_sessions := ∅; mock_market_data_store := [];
   client_subscriptions := ∅; draws := 0%nat; broker_calls := [] |}.

(** [not data] *)
Definition body_falsy (b : option Body) : bool :=
match b with
| None => true
| Some b =>
    bool_decide (dom (members b) = ∅) &&
    match instruments b with None => true | Some _ => false end
end.

(** *** Placeholder Shoonya functions *)

Definition shoonya_login (username password client_id : pyval) (st : State)
  : result string string * State :=
let st1 := {| active_sessions := active_sessions st;
              mock_market_data_store := mock_market_data_store st;
              client_subscriptions := client_subscriptions st;
              draws := draws st;
              broker_calls := broker_calls st ++ [LoginCall username password client_id] |} in
if eq_str password "fail_shoonya_login"
then (Error "Shoonya login failed (mock)", st1)
else (Ok ("mock_shoonya_session_" +:+ uuid4 (draws st)),
      {| active_sessions := active_sessions st1;
         mock_market_data_store := mock_market_data_store st1;
         client_subscriptions := client_subscriptions st1;
         draws := S (draws st1);
         broker_calls := broker_calls st1 |}).

(** The dict [shoonya_place_order] returns. *)
Record OrderResult := {
  result_status : string;
  result_message : option string;
  shoonya_order_id : option string;
  result_order_status : option order_status
}.

Definition shoonya_place_order (session_id : string) (order_details : Body) (st : State)
  : OrderResult * State :=
let log := broker_calls st ++ [PlaceOrderCall session_id order_details] in
if eq_str (get (members order_details) "symbol") "FAIL_ORDER"
then ({| result_status := "error";
         result_message := Some "Shoonya order placement failed (mock): Invalid symbol";
         shoonya_order_id := None;
         result_order_status := Some REJECTED_BROKER |},
      {| active_sessions := active_sessions st;
         mock_market_data_store := mock_market_data_store st;
         client_subscriptions := client_subscriptions st;
         draws := draws st;
         broker_calls := log |})
else ({| result_status := "success";
         result_message := None;
         shoonya_order_id := Some ("mock_shoonya_order_" +:+ uuid4 (draws st));
         result_order_status := Some SENT_TO_BROKER |},
      {| active_sessions := active_sessions st;
         mock_market_data_store := mock_market_data_store st;
         client_subscriptions := client_subscriptions st;
         draws := S (draws st);
         broker_calls := log |}).

Definition instrument_key (inst : gmap string pyval) : string :=
str (get inst "exchange") +:+ "_" +:+ str (get inst "token").

(** [key in mock_market_data_store] and [mock_market_data_store[key]] *)
Definition store_lookup (key : string) (store : list (string * Quote)) : option Quote :=
snd <$> List.find (fun kv => String.eqb (fst kv) key) store.

(** One turn of the loop of [shoonya_subscribe_market_data]. *)
Definition subscribe_one (acc : list string * list (string * Quote) * nat)
  (inst : gmap string pyval) : list string * list (string * Quote) * nat :=
let '(subscribed_keys, store, n) := acc in
let key := instrument_key inst in
match store_lookup key store with
| Some _ => (subscribed_keys ++ [key], store, n)
| None => (subscribed_keys ++ [key], store ++ [(key, new_quote (get inst "exchange") n)], S n)
end.

Definition shoonya_subscribe_market_data (session_id : string)
  (instruments_to_subscribe : list (gmap string pyval)) (st : State)
  : result (string * list string) string * State :=
let log := broker_calls st ++ [SubscribeCall session_id instruments_to_subscribe] in
match instruments_to_subscribe with
| [] => (Error "Shoonya market data subscription failed (mock): No instruments provided",
         {| active_sessions := active_sessions st;
            mock_market_data_store := mock_market_data_store st;
            client_subscriptions := client_subscriptions st;
            draws := draws st;
            broker_calls := log |})
| _ =>
    let '(subscribed_keys, store, n) :=
      foldl subscribe_one ([], mock_market_data_store st, draws st) instruments_to_subscribe in
    (Ok ("mock_shoonya_sub_" +:+ uuid4 n, subscribed_keys),
     {| active_sessions := active_sessions st;
        mock_market_data_store := store;
        client_subscriptions := client_subscriptions st;
        draws := S n;
        broker_calls := log |})
end.

(** *** Authentication decorator *)

(** A view function as [token_required] calls it, with the keyword arguments
    [current_user_session] and [current_session_token]. *)
Definition View : Type := Session -> string -> Request -> State -> outcome * State.

(** The token read from the [Authorization] header, lines 86-90. *)
Definition bearer_token (auth_header : option string) : option string :=
match auth_header with
| Some h =>
    if negb (String.eqb h "") && String.prefix "Bearer " h
    then match index (split_whitespace_1 h) 1 with
         | Ok token => Some token
         | Error _ => None
         end
    else None
| None => None
end.

Definition token_required (f : View) (req : Request) (st : State) : outcome * State :=
match bearer_token (authorization req) with
| None => (Response (error_reply TokenMissing) 401, st)
| Some token =>
    if String.eqb token ""
    then (Response (error_reply TokenMissing) 401, st)
    else match active_sessions st !! token with
         | None => (Response (error_reply TokenInvalid) 401, st)
         | Some current_user_session => f current_user_session token req st
         end
end.

(** *** [/connect] *)

Definition connect (req : Request) (st : State) : outcome * State :=
if body_falsy (json req) then (Response (error_reply BodyMustBeJson) 400, st)
else
  let data := default ∅ (members <$> json req) in
  let username := get data "username" in
  let password := get data "password" in
  let client_id := get data "client_id" in
  if negb (truthy username && truthy password && truthy client_id)
  then (Response (error_reply MissingCredentials) 400, st)
  else
    match shoonya_login username password client_id st with
    | (Error reason, st1) => (Response (error_reply (ShoonyaAuthFailed reason)) 401, st1)
    | (Ok session_id, st1) =>
        let mcp_session_token := uuid4 (draws st1) in
        (Response {| status := "success"; reply_message := AuthSuccessful;
                     reply_order_status := None; order_id := None;
                     session_token := Some mcp_session_token;
                     subscription_id := None; data := None |} 200,
         {| active_sessions :=
              <[mcp_session_token :=
                  {| username := username; client_id := client_id;
                     shoonya_session_id := session_id |}]> (active_sessions st1);
            mock_market_data_store := mock_market_data_store st1;
            client_subscriptions := client_subscriptions st1;
            draws := S (draws st1);
            broker_calls := broker_calls st1 |})
    end.

(** *** [/order] *)

(** Lines 140-144: the check on [quantity]. *)
Definition quantity_errors (quantity : pyval) : list order_error :=
match as_int quantity with
| Some q =>
    if q <=? 0 then [QuantityNotPositiveInteger]
    else if MAX_ORDER_QUANTITY <? q then [QuantityExceedsMaximum quantity]
    else []
| None => [QuantityNotPositiveInteger]
end.

(** Lines 146-154: the check on [price] and on the order value; the product
    [quantity * price] can raise. *)
Definition price_errors (order_type quantity price : pyval) : result (list order_error) exn :=
if in_strs order_type ["LIMIT"; "SL"]
then
  match as_number price with
  | None => Ok [PriceNotPositive order_type]
  | Some p =>
      if le_const p 0 then Ok [PriceNotPositive order_type]
      else
        match as_int quantity with
        | Some q =>
            if truthy quantity && (0 <? q)
            then
              match mul_int q p with
              | Ok order_value =>
                  if gt_const order_value MAX_ORDER_VALUE
                  then Ok [OrderValueExceedsMaximum order_value quantity price]
                  else Ok []
              | Error e => Error e
              end
            else Ok []
        | None => Ok []
        end
  end
else Ok [].

(** Lines 134-144: the errors collected on the enumerated fields and on
    [quantity], in the order the code appends them. *)
Definition field_errors (data : gmap string pyval) : list order_error :=
(if in_strs (get data "exchange") ALLOWED_EXCHANGES then [] else [InvalidExchange]) ++
(if in_strs (get data "order_type") ALLOWED_ORDER_TYPES then [] else [InvalidOrderType]) ++
(if in_strs (get data "transaction_type") ALLOWED_TRANSACTION_TYPES then [] else [InvalidTransactionType]) ++
(if in_strs (get data "product_type") ALLOWED_PRODUCT_TYPES then [] else [InvalidProductType]) ++
quantity_errors (get data "quantity").

(** The block between the two "MCP-Level Order Validation" comments, lines
    122-159: the final [errors] list, or the exception that stops the view.
    Missing fields return at once with their single message. *)
Definition validate_order (data : gmap string pyval) : result (list order_error) exn :=
let missing_fields := filter (fun field => bool_decide (data !! field = None)) required_fields in
match missing_fields with
| _ :: _ => Ok [MissingOrderParameters missing_fields]
| [] =>
    match price_errors (get data "order_type") (get data "quantity") (get data "price") with
    | Ok more => Ok (field_errors data ++ more)
    | Error e => Error e
    end
end.

Definition place_order : View := fun current_user_session current_session_token req st =>
if body_falsy (json req) then (Response (rejected_reply BodyMustBeJson) 400, st)
else
  let data := default {| members := ∅; instruments := None |} (json req) in
  match validate_order (members data) with
  | Error e => (Unhandled e, st)
  | Ok ((_ :: _) as errors) => (Response (rejected_reply (ValidationErrors errors)) 400, st)
  | Ok [] =>
      let '(shoonya_order_result, st1) :=
        shoonya_place_order (shoonya_session_id current_user_session) data st in
      let success := String.eqb (result_status shoonya_order_result) "success" in
      (Response
         {| status := result_status shoonya_order_result;
            reply_message :=
              match result_message shoonya_order_result with
              | Some text => BrokerMessage text
              | None => OrderProcessingComplete
              end;
            reply_order_status :=
              Some (default ERROR (result_order_status shoonya_order_result));
            order_id := if success then shoonya_order_id shoonya_order_result else None;
            session_token := None; subscription_id := None; data := None |}
         (if success then 200 else 400)%nat,
       st1)
  end.

(** *** [/marketdata/subscribe] *)

(** Lines 182-186: the instruments, or [None] at the first bad one. *)
Fixpoint valid_instruments (insts : list raw_instrument) : option (list (gmap string pyval)) :=
match insts with
| [] => Some []
| InstrumentObject inst :: rest =>
    if bool_decide (is_Some (inst !! "exchange")) && bool_decide (is_Some (inst !! "token"))
    then cons inst <$> valid_instruments rest
    else None
| NotAnObject :: _ => None
end.

(** [tracked.extend(key for key in keys if key not in tracked)]: the
    generator is consumed while the list grows, so each test sees the keys
    appended before it. *)
Definition extend_new (tracked : list string) (keys : list string) : list string :=
foldl (fun acc key => if bool_decide (key ∈ acc) then acc else acc ++ [key]) tracked keys.

(** [sum(1 for key in keys if key not in tracked)], evaluated before the
    list is extended. *)
Definition count_new (tracked : list string) (keys : list string) : nat :=
length (filter (fun key => key ∉ tracked) keys).

Definition subscribe_market_data : View := fun current_user_session current_session_token req st =>
if body_falsy (json req) then (Response (error_reply BodyMustBeJson) 400, st)
else
  match json req ≫= instruments with
  | None | Some [] => (Response (error_reply InvalidInstrumentsList) 400, st)
  | Some insts =>
      match valid_instruments insts with
      | None => (Response (error_reply InvalidInstrumentFormat) 400, st)
      | Some [] => (Response (error_reply NoValidInstruments) 400, st)
      | Some valid =>
          match shoonya_subscribe_market_data (shoonya_session_id current_user_session) valid st with
          | (Ok (sub_id, subscribed_keys), st1) =>
              let tracked := default [] (client_subscriptions st1 !! current_session_token) in
              let newly_tracked := count_new tracked subscribed_keys in
              let tracked' := extend_new tracked subscribed_keys in
              (Response {| status := "success";
                           reply_message := SubscribedTracking newly_tracked (length tracked');
                           reply_order_status := None; order_id := None;
                           session_token := None; subscription_id := Some sub_id;
                           data := None |} 200,
               {| active_sessions := active_sessions st1;
                  mock_market_data_store := mock_market_data_store st1;
                  client_subscriptions :=
                    <[current_session_token := tracked']> (client_subscriptions st1);
                  draws := draws st1;
                  broker_calls := broker_calls st1 |})
          | (Error reason, st1) =>
              (Response (error_reply (FailedShoonyaSubscribe reason)) 400, st1)
          end
      end
  end.

(** *** [/marketdata/fetch] *)

(** Lines 200-207: every quote of the store is perturbed in turn. *)
Fixpoint simulate_changes (store : list (string * Quote)) (n : nat)
  : list (string * Quote) * nat :=
match store with
| [] => ([], n)
| (key, q) :: rest =>
    let '(rest', n') := simulate_changes rest (S n) in
    ((key, drift_quote q n) :: rest', n')
end.

Definition fetch_market_data : View := fun current_user_session current_session_token req st =>
let '(store, n) := simulate_changes (mock_market_data_store st) (draws st) in
let st1 := {| active_sessions := active_sessions st;
              mock_market_data_store := store;
              client_subscriptions := client_subscriptions st;
              draws := n;
              broker_calls := broker_calls st |} in
match default [] (client_subscriptions st !! current_session_token) with
| [] =>
    (Response {| status := "success"; reply_message := NoActiveSubscriptions;
                 reply_order_status := None; order_id := None;
                 session_token := None; subscription_id := None;
                 data := Some [] |} 200, st1)
| subscribed_keys =>
    let data_to_return :=
      omap (fun key => pair key <$> store_lookup key store) (extend_new [] subscribed_keys) in
    (Response {| status := "success";
                 reply_message := FetchedData (length data_to_return);
                 reply_order_status := None; order_id := None;
                 session_token := None; subscription_id := None;
                 data := Some data_to_return |} 200, st1)
end.

(** *** The routes, and runs of the server *)

Inductive endpoint := OrderEndpoint | SubscribeEndpoint | FetchEndpoint.

Definition view (ep : endpoint) : View :=
match ep with
| OrderEndpoint => place_order
| SubscribeEndpoint => subscribe_market_data
| FetchEndpoint => fetch_market_data
end.

(** The view functions as Flask registers them, under [@token_required]. *)
Definition route (ep : endpoint) : Request -> State -> outcome * State :=
token_required (view ep).

Inductive call :=
| Connect (req : Request)
| Call (ep : endpoint) (req : Request).

Definition handle (c : call) (st : State) : outcome * State :=
match c with
| Connect req => connect req st
| Call ep req => route ep req st
end.

(** The state after a sequence of requests, served one after the other. *)
Definition run (calls : list call) (st : State) : State :=
foldl (fun st c => snd (handle c st)) st calls.

(** *** Notions the statements about the gateway use *)

(** The presented token is absent, or is not a key of [active_sessions]. *)
Definition unauthenticated (req : Request) (st : State) : Prop :=
forall token, bearer_token (authorization req) = Some token ->
  active_sessions st !! token = None.

(** The scalar members of the body of a request; none without a body. *)
Definition order_data (req : Request) : gmap string pyval :=
default ∅ (members <$> json req).

(** [quantity] is not an int above zero. *)
Definition not_positive_int (quantity : pyval) : Prop :=
forall q, as_int quantity = Some q -> q <= 0.

(** No required field is missing. *)
Definition complete (data : gmap string pyval) : Prop :=
forall field, In field required_fields -> is_Some (data !! field).

Definition is_ceiling_error (e : order_error) : bool :=
match e with QuantityExceedsMaximum _ => true | _ => false end.

Definition is_value_error (e : order_error) : bool :=
match e with OrderValueExceedsMaximum _ _ _ => true | _ => false end.

(** The validation returns and none of its errors is about the order
    value. *)
Definition passes_notional (data : gmap string pyval) : Prop :=
exists errors, validate_order data = Ok errors /\ existsb is_value_error errors = false.

(** The validation returns and none of its errors is about the quantity
    ceiling. *)
Definition passes_ceiling (data : gmap string pyval) : Prop :=
exists errors, validate_order data = Ok errors /\ existsb is_ceiling_error errors = false.

(** The keys a subscription request asks for, in order. *)
Definition requested_keys (req : Request) : list string :=
match json req ≫= instruments with
| Some insts => instrument_key <$> default [] (valid_instruments insts)
| None => []
end.

(** The list kept for a caller's token; empty before the first
    subscription. *)
Definition tracked_keys (st : State) (token : string) : list string :=
default [] (client_subscriptions st !! token).

(** No caller's list holds a key twice. *)
Definition no_repeats (st : State) : Prop :=
forall token, NoDup (tracked_keys st token).

End WithWorld.

Arguments Reply {W}.
Arguments State {W}.
Arguments View {W}.
Arguments outcome {W}.

End App.

(** ** The MCP agent, [src/shoonya_mcp_agent/agent.py] *)

Module Agent.
Import Py.

(** Pydantic's validation of a raw value that is not [None] against the
    annotations [str], [int] and [float] of [ShoonyaTickData]; [None] is a
    [ValidationError]. *)
Class Validator := {
  validate_str : pyval -> option string;
  validate_int : pyval -> option Z;
  validate_float : pyval -> option spec_float
}.

(** A validator for the sample runs: it takes a value of the annotated type
    as it is, and an int for a float, and refuses the rest.  Pydantic's lax
    mode accepts more (a numeric string for a number); the sample runs use
    typed values only, and the statements below hold for every validator. *)
Definition plain_validator : Validator :=
{| validate_str v := match v with VStr s => Some s | _ => None end;
   validate_int v := match v with VInt z => Some z | _ => None end;
   validate_float v :=
     match v with
     | VFloat f => Some f
     | VInt z => match float_of_int z with Ok f => Some f | Error _ => None end
     | _ => None
     end |}.

(** [ShoonyaTickData]: every field is [Optional] and defaults to [None]. *)
Record ShoonyaTickData := {
  type : option string;
  exchange : option string;
  token : option string;
  last_traded_price : option spec_float;
  last_traded_quantity : option Z;
  average_traded_price : option spec_float;
  volume : option Z;
  change_percent : option spec_float;
  open_price : option spec_float;
  high_price : option spec_float;
  low_price : option spec_float;
  close_price : option spec_float;
  total_buy_quantity : option Z;
  total_sell_quantity : option Z;
  open_interest : option Z;
  feed_timestamp : option string;
  mcp_received_timestamp : option spec_float
}.

(** The fields by name. *)
Inductive field :=
| f_type | f_exchange | f_token | f_last_traded_price | f_last_traded_quantity
| f_average_traded_price | f_volume | f_change_percent | f_open_price
| f_high_price | f_low_price | f_close_price | f_total_buy_quantity
| f_total_sell_quantity | f_open_interest | f_feed_timestamp
| f_mcp_received_timestamp.

Definition all_fields : list field :=
[f_type; f_exchange; f_token; f_last_traded_price; f_last_traded_quantity;
 f_average_traded_price; f_volume; f_change_percent; f_open_price;
 f_high_price; f_low_price; f_close_price; f_total_buy_quantity;
 f_total_sell_quantity; f_open_interest; f_feed_timestamp;
 f_mcp_received_timestamp].

Definition name (f : field) : string :=
match f with
| f_type => "type" | f_exchange => "exchange" | f_token => "token"
| f_last_traded_price => "last_traded_price"
| f_last_traded_quantity => "last_traded_quantity"
| f_average_traded_price => "average_traded_price"
| f_volume => "volume" | f_change_percent => "change_percent"
| f_open_price => "open_price" | f_high_price => "high_price"
| f_low_price => "low_price" | f_close_price => "close_price"
| f_total_buy_quantity => "total_buy_quantity"
| f_total_sell_quantity => "total_sell_quantity"
| f_open_interest => "open_interest"
| f_feed_timestamp => "feed_timestamp"
| f_mcp_received_timestamp => "mcp_received_timestamp"
end.

(** [Field(None, alias=...)]; a field declared without alias goes by its
    name. *)
Definition alias (f : field) : string :=
match f with
| f_type => "type" | f_exchange => "e" | f_token => "tk"
| f_last_traded_price => "lp" | f_last_traded_quantity => "lq"
| f_average_traded_price => "ap" | f_volume => "v"
| f_change_percent => "c" | f_open_price => "o" | f_high_price => "h"
| f_low_price => "l" | f_close_price => "cl"
| f_total_buy_quantity => "tbq" | f_total_sell_quantity => "tsq"
| f_open_interest => "oi" | f_feed_timestamp => "ft"
| f_mcp_received_timestamp => "mcp_received_timestamp"
end.

Definition of_str (o : option string) : pyval := from_option VStr VNone o.
Definition of_int (o : option Z) : pyval := from_option VInt VNone o.
Definition of_float (o : option spec_float) : pyval := from_option VFloat VNone o.

(** [getattr(t, name f)] *)
Definition field_value (t : ShoonyaTickData) (f : field) : pyval :=
match f with
| f_type => of_str (type t) | f_exchange => of_str (exchange t)
| f_token => of_str (token t)
| f_last_traded_price => of_float (last_traded_price t)
| f_last_traded_quantity => of_int (last_traded_quantity t)
| f_average_traded_price => of_float (average_traded_price t)
| f_volume => of_int (volume t)
| f_change_percent => of_float (change_percent t)
| f_open_price => of_float (open_price t)
| f_high_price => of_float (high_price t)
| f_low_price => of_float (low_price t)
| f_close_price => of_float (close_price t)
| f_total_buy_quantity => of_int (total_buy_quantity t)
| f_total_sell_quantity => of_int (total_sell_quantity t)
| f_open_interest => of_int (open_interest t)
| f_feed_timestamp => of_str (feed_timestamp t)
| f_mcp_received_timestamp => of_float (mcp_received_timestamp t)
end.

(** [t.model_dump(by_alias=True, exclude_none=True)] *)
Definition model_dump (t : ShoonyaTickData) : gmap string pyval :=
list_to_map
  (omap (fun f => match field_value t f with
                  | VNone => None
                  | v => Some (alias f, v)
                  end) all_fields).

(** The tick whose fields are all [None]. *)
Definition empty_tick : ShoonyaTickData :=
{| type := None; exchange := None; token := None;
   last_traded_price := None; last_traded_quantity := None;
   average_traded_price := None; volume := None; change_percent := None;
   open_price := None; high_price := None; low_price := None;
   close_price := None; total_buy_quantity := None;
   total_sell_quantity := None; open_interest := None;
   feed_timestamp := None; mcp_received_timestamp := None |}.

(** [ShoonyaTickData(exchange=..., token=...)]: the keywords are the names
    of two fields that have the aliases [e] and [tk].  Population is by
    alias only (see [raw_value] below), and an entry that populates no
    field is ignored, so both keywords are dropped and every field keeps
    its default. *)
Definition new_tick (exch tok : string) : ShoonyaTickData :=
empty_tick.


(** [t.mcp_received_timestamp = now] *)
Definition set_mcp_received_timestamp (t : ShoonyaTickData) (now : spec_float) : ShoonyaTickData :=
{| type := type t; exchange := exchange t; token := token t;
   last_traded_price := last_traded_price t;
   last_traded_quantity := last_traded_quantity t;
   average_traded_price := average_traded_price t; volume := volume t;
   change_percent := change_percent t; open_price := open_price t;
   high_price := high_price t; low_price := low_price t;
   close_price := close_price t;
   total_buy_quantity := total_buy_quantity t;
   total_sell_quantity := total_sell_quantity t;
   open_interest := open_interest t; feed_timestamp := feed_timestamp t;
   mcp_received_timestamp := Some now |}.

(** [t.last_traded_price = price], as a caller holding [t] can write. *)
Definition set_last_traded_price (t : ShoonyaTickData) (price : option spec_float) : ShoonyaTickData :=
{| type := type t; exchange := exchange t; token := token t;
   last_traded_price := price;
   last_traded_quantity := last_traded_quantity t;
   average_traded_price := average_traded_price t; volume := volume t;
   change_percent := change_percent t; open_price := open_price t;
   high_price := high_price t; low_price := low_price t;
   close_price := close_price t;
   total_buy_quantity := total_buy_quantity t;
   total_sell_quantity := total_sell_quantity t;
   open_interest := open_interest t; feed_timestamp := feed_timestamp t;
   mcp_received_timestamp := mcp_received_timestamp t |}.

Section WithValidator.
Context {V : Validator} {R : Repr}.

(** The raw value a field is populated from: the entry under its alias.
    The code calls [model_dump], which pydantic has from version 2 on;
    there the [Config] key [allow_population_by_field_name] of line 128 is
    only warned about, and an entry under the name of a field that has an
    alias populates nothing. *)
Definition raw_value (tick_data : gmap string pyval) (f : field) : option pyval :=
tick_data !! alias f.

(** An [Optional] field: absent or [None] gives [None]; anything else is
    validated. *)
Definition optional {A} (validate : pyval -> option A) (raw : option pyval)
  : option (option A) :=
match raw with
| None | Some VNone => Some None
| Some v => Some <$> validate v
end.

(** [ShoonyaTickData.parse_obj(tick_data)]; [None] is a
    [ValidationError].  Entries that populate no field are ignored. *)
Definition parse_obj (tick_data : gmap string pyval) : option ShoonyaTickData :=
ty ← optional validate_str (raw_value tick_data f_type);
e ← optional validate_str (raw_value tick_data f_exchange);
tk ← optional validate_str (raw_value tick_data f_token);
lp ← optional validate_float (raw_value tick_data f_last_traded_price);
lq ← optional validate_int (raw_value tick_data f_last_traded_quantity);
ap ← optional validate_float (raw_value tick_data f_average_traded_price);
v ← optional validate_int (raw_value tick_data f_volume);
c ← optional validate_float (raw_value tick_data f_change_percent);
o ← optional validate_float (raw_value tick_data f_open_price);
h ← optional validate_float (raw_value tick_data f_high_price);
l ← optional validate_float (raw_value tick_data f_low_price);
cl ← optional validate_float (raw_value tick_data f_close_price);
tbq ← optional validate_int (raw_value tick_data f_total_buy_quantity);
tsq ← optional validate_int (raw_value tick_data f_total_sell_quantity);
oi ← optional validate_int (raw_value tick_data f_open_interest);
ft ← optional validate_str (raw_value tick_data f_feed_timestamp);
ts ← optional validate_float (raw_value tick_data f_mcp_received_timestamp);
Some {| type := ty; exchange := e; token := tk; last_traded_price := lp;
        last_traded_quantity := lq; average_traded_price := ap; volume := v;
        change_percent := c; open_price := o; high_price := h;
        low_price := l; close_price := cl; total_buy_quantity := tbq;
        total_sell_quantity := tsq; open_interest := oi;
        feed_timestamp := ft; mcp_received_timestamp := ts |}.

(** *** [LiveMarketDataResource] *)

(** [ShoonyaTickData] objects are mutable and shared by reference: [objects]
    is the store of the objects allocated so far, [_data] maps an instrument
    key to the reference it holds.  [notified] lists the arguments of the
    calls to [notify_update], oldest first; a dict [{key: None}] reports a
    removal. *)
Record Resource := {
  objects : gmap nat ShoonyaTickData;
  allocated : nat;
  _data : gmap string nat;
  notified : list (string * option (gmap string pyval))
}.

Definition new_resource : Resource :=
{| objects := ∅; allocated := 0%nat; _data := ∅; notified := [] |}.

(** The object behind a reference. *)
Definition deref (r : Resource) (ref : nat) : option ShoonyaTickData :=
objects r !! ref.

(** Store a new object under [instrument_key] and notify its dump. *)
Definition store_new (instrument_key : string) (t : ShoonyaTickData) (r : Resource) : Resource :=
{| objects := <[allocated r := t]> (objects r);
   allocated := S (allocated r);
   _data := <[instrument_key := allocated r]> (_data r);
   notified := notified r ++ [(instrument_key, Some (model_dump t))] |}.

(** [tick_data.get('t') not in ['tf', 'df']] *)
Definition is_data_tick (tick_data : gmap string pyval) : bool :=
in_strs (get tick_data "t") ["tf"; "df"].

(** [update_tick]; [now] is the reading of the event loop's clock.  A
    [ValidationError] is caught and logged by the [except] clause. *)
Definition update_tick (instrument_key : string) (tick_data : gmap string pyval)
  (now : spec_float) (r : Resource) : Resource :=
if negb (is_data_tick tick_data) then r
else
  match parse_obj tick_data with
  | None => r
  | Some parsed_tick =>
      store_new instrument_key (set_mcp_received_timestamp parsed_tick now) r
  end.

(** [get_instrument_data]: the reference held by the dict, or [None]. *)
Definition get_instrument_data (instrument_key : string) (r : Resource) : option nat :=
_data r !! instrument_key.

(** [get_all_data]: [dict.copy()] makes a new dict with the same
    references. *)
Definition get_all_data (r : Resource) : gmap string nat :=
_data r.

(** [initialize_instrument]; nothing catches the [IndexError] of
    [instrument_key.split('|')[1]]. *)
Definition initialize_instrument (instrument_key : string) (r : Resource)
  : result unit exn * Resource :=
match _data r !! instrument_key with
| Some _ => (Ok (), r)
| None =>
    match index (split_char "|" instrument_key) 0, index (split_char "|" instrument_key) 1 with
    | Ok exch, Ok tok => (Ok (), store_new instrument_key (new_tick exch tok) r)
    | Error e, _ | _, Error e => (Error e, r)
    end
end.

Definition remove_instrument (instrument_key : string) (r : Resource) : Resource :=
match _data r !! instrument_key with
| Some _ =>
    {| objects := objects r; allocated := allocated r;
       _data := delete instrument_key (_data r);
       notified := notified r ++ [(instrument_key, None)] |}
| None => r
end.

(** An assignment [ref.last_traded_price = price] made by code that holds
    the reference [ref]. *)
Definition assign_last_traded_price (ref : nat) (price : option spec_float) (r : Resource) : Resource :=
{| objects := alter (fun t => set_last_traded_price t price) ref (objects r);
   allocated := allocated r; _data := _data r; notified := notified r |}.


(** What a caller reads behind the reference [get_instrument_data]
    returns. *)
Definition read_instrument (instrument_key : string) (r : Resource) : option ShoonyaTickData :=
get_instrument_data instrument_key r ≫= deref r.

(** The validation a field's annotation asks for, on a raw value that is
    not [None]. *)
Definition validated (f : field) (v : pyval) : option pyval :=
match f with
| f_type | f_exchange | f_token | f_feed_timestamp => VStr <$> validate_str v
| f_last_traded_quantity | f_volume | f_total_buy_quantity
| f_total_sell_quantity | f_open_interest => VInt <$> validate_int v
| _ => VFloat <$> validate_float v
end.

(** The value a field gets from its raw value; [None] is a
    [ValidationError]. *)
Definition field_of_raw (f : field) (raw : option pyval) : option pyval :=
match raw with
| None | Some VNone => Some VNone
| Some v => validated f v
end.

(** *** [ShoonyaMCPAgent] *)

(** The attributes of the agent that its tools and callbacks assign.
    [shoonya_api] is [false] when [ShoonyaApiPy()] failed in [__init__] and
    the attribute is [None]. *)
Record Agent := {
  shoonya_api : bool;
  shoonya_user_token : pyval;
  shoonya_user_id : pyval;
  shoonya_username : pyval;
  shoonya_account_details : gmap string pyval;
  websocket_connected : bool;
  subscribed_instruments_mcp : gmap string bool;
  live_market_data_resource : Resource
}.

(** [__init__] *)
Definition new_agent (api_created : bool) : Agent :=
{| shoonya_api := api_created;
   shoonya_user_token := VNone; shoonya_user_id := VNone;
   shoonya_username := VNone; shoonya_account_details := ∅;
   websocket_connected := false; subscribed_instruments_mcp := ∅;
   live_market_data_resource := new_resource |}.

Definition set_websocket_connected (b : bool) (a : Agent) : Agent :=
{| shoonya_api := shoonya_api a;
   shoonya_user_token := shoonya_user_token a;
   shoonya_user_id := shoonya_user_id a;
   shoonya_username := shoonya_username a;
   shoonya_account_details := shoonya_account_details a;
   websocket_connected := b;
   subscribed_instruments_mcp := subscribed_instruments_mcp a;
   live_market_data_resource := live_market_data_resource a |}.

(** The three assignments [self.shoonya_user_token = None],
    [self.shoonya_user_id = None], [self.shoonya_username = None]. *)
Definition reset_login (a : Agent) : Agent :=
{| shoonya_api := shoonya_api a;
   shoonya_user_token := VNone; shoonya_user_id := VNone;
   shoonya_username := VNone;
   shoonya_account_details := shoonya_account_details a;
   websocket_connected := websocket_connected a;
   subscribed_instruments_mcp := subscribed_instruments_mcp a;
   live_market_data_resource := live_market_data_resource a |}.

(** The assignments after a successful login, lines 316-319. *)
Definition record_login (login_response : gmap string pyval) (a : Agent) : Agent :=
{| shoonya_api := shoonya_api a;
   shoonya_user_token := get login_response "susertoken";
   shoonya_user_id := get login_response "uid";
   shoonya_username := get login_response "uname";
   shoonya_account_details :=
     filter (fun kv => kv.1 ∉ ["stat"; "emsg"; "susertoken"]) login_response;
   websocket_connected := websocket_connected a;
   subscribed_instruments_mcp := subscribed_instruments_mcp a;
   live_market_data_resource := live_market_data_resource a |}.

Definition with_resource (r : Resource) (tracked : gmap string bool) (a : Agent) : Agent :=
{| shoonya_api := shoonya_api a;
   shoonya_user_token := shoonya_user_token a;
   shoonya_user_id := shoonya_user_id a;
   shoonya_username := shoonya_username a;
   shoonya_account_details := shoonya_account_details a;
   websocket_connected := websocket_connected a;
   subscribed_instruments_mcp := tracked;
   live_market_data_resource := r |}.

(** The socket callbacks the agent hands to [start_websocket]. *)
Inductive ws_callback := SocketOpen | SocketClose.

Definition on_websocket (cb : ws_callback) (a : Agent) : Agent :=
match cb with
| SocketOpen => set_websocket_connected true a     (* _on_websocket_open *)
| SocketClose => set_websocket_connected false a   (* _on_websocket_close *)
end.

Definition _is_connected (a : Agent) : bool :=
match shoonya_user_token a with
| VNone => false
| _ => true
end.

(** What [shoonya_api.login] does when called: it raises, or it returns a
    dict or [None]. *)
Inductive login_behaviour :=
| LoginRaises (e : string)
| LoginReturns (login_response : option (gmap string pyval)).

(** What happens from the call of [start_websocket] to the test of
    [websocket_connected] at line 349: the socket callbacks that fire, in
    order, and whether [start_websocket] raises after them.  When it
    returns, [fired] also holds the callbacks of the two seconds of sleep. *)
Inductive websocket_behaviour :=
| StartRaises (fired : list ws_callback) (e : string)
| StartReturns (fired : list ws_callback).

(** The dicts the tool returns, by their [message]. *)
Inductive connect_result :=
| ApiNotInitialized                        (* status error *)
| AlreadyConnected (user_id user_name : pyval)    (* status success *)
| LoginException (e : string)              (* status error *)
| ConnectedWithWebSocket (user_id user_name : pyval) (* status success *)
| WebSocketFailedToOpen                    (* status error *)
| WebSocketStartupFailed (e : string)      (* status error *)
| LoginFailed (emsg : pyval).              (* status error *)

Definition result_status (c : connect_result) : string :=
match c with
| AlreadyConnected _ _ | ConnectedWithWebSocket _ _ => "success"
| _ => "error"
end.

Definition connect_shoonya_broker (login : login_behaviour) (ws : websocket_behaviour)
  (a : Agent) : result connect_result exn * Agent :=
if negb (shoonya_api a) then (Ok ApiNotInitialized, a)
else if _is_connected a && websocket_connected a
then (Ok (AlreadyConnected (shoonya_user_id a) (shoonya_username a)), a)
else
  match login with
  | LoginRaises e =>
      (Ok (LoginException e), set_websocket_connected false (reset_login a))
  | LoginReturns login_response =>
      match login_response with
      | Some response =>
          if negb (bool_decide (dom response = ∅)) && eq_str (get response "stat") "Ok"
          then
            let a1 := record_login response a in
            match ws with
            | StartRaises fired e =>
                let a2 := foldl (fun a cb => on_websocket cb a) a1 fired in
                (Ok (WebSocketStartupFailed e),
                 set_websocket_connected false (reset_login a2))
            | StartReturns fired =>
                let a2 := foldl (fun a cb => on_websocket cb a) a1 fired in
                if websocket_connected a2
                then (Ok (ConnectedWithWebSocket (shoonya_user_id a2) (shoonya_username a2)), a2)
                else (Ok WebSocketFailedToOpen, reset_login a2)
            end
          else
            (Ok (LoginFailed (default (VStr "Unknown error") (response !! "emsg"))),
             set_websocket_connected false (reset_login a))
      | None =>
          (* login_response.get on None, before any assignment *)
          (Error AttributeError, a)
      end
  end.

(** [subscribe_market_feeds]; [api_raises] tells whether
    [shoonya_api.subscribe] raises.  The coroutines handed to
    [run_coroutine_threadsafe] run in the order they are scheduled, and
    what they raise stays in their futures. *)
Definition subscribe_market_feeds (instruments : list string) (api_raises : bool) (a : Agent) : Agent :=
if negb (_is_connected a) then a
else if negb (websocket_connected a) then a
else if api_raises then a
else
  let '(tracked, r) :=
    foldl (fun acc inst =>
             (<[inst := true]> acc.1, snd (initialize_instrument inst acc.2)))
          (subscribed_instruments_mcp a, live_market_data_resource a) instruments in
  with_resource r tracked a.

Definition unsubscribe_market_feeds (instruments : list string) (api_raises : bool) (a : Agent) : Agent :=
if negb (_is_connected a) then a
else if api_raises then a
else
  let '(tracked, r) :=
    foldl (fun acc inst => (delete inst acc.1, remove_instrument inst acc.2))
          (subscribed_instruments_mcp a, live_market_data_resource a) instruments in
  with_resource r tracked a.

(** The agent holds no authenticated session: the three login attributes
    are [None] and the socket is marked closed. *)
Definition no_session (a : Agent) : Prop :=
shoonya_user_token a = VNone /\ shoonya_user_id a = VNone /\
shoonya_username a = VNone /\ websocket_connected a = false.

(** The instrument key [_on_market_data_feed] reads from a raw tick, lines
    247-251. *)
Definition feed_key (tick_data : gmap string pyval) : option string :=
if bool_decide (is_Some (tick_data !! "tk")) && bool_decide (is_Some (tick_data !! "e"))
then Some (str (get tick_data "e") +:+ "|" +:+ str (get tick_data "tk"))
else if bool_decide (is_Some (tick_data !! "token")) && bool_decide (is_Some (tick_data !! "exseg"))
then Some (str (get tick_data "exseg") +:+ "|" +:+ str (get tick_data "token"))
else None.

(** [_on_market_data_feed]: the tick of a tracked instrument is handed to
    [update_tick], which runs at time [now]; any other tick is logged and
    dropped. *)
Definition _on_market_data_feed (tick_data : gmap string pyval) (now : spec_float)
  (a : Agent) : Agent :=
match feed_key tick_data with
| Some instrument_key =>
    if negb (String.eqb instrument_key "") &&
       bool_decide (is_Some (subscribed_instruments_mcp a !! instrument_key))
    then with_resource
           (update_tick instrument_key tick_data now (live_market_data_resource a))
           (subscribed_instruments_mcp a) a
    else a
| None => a
end.

(** What can happen to an agent.  The callbacks are invoked by the
    [ShoonyaApiPy] object only, so none fires on an agent without one.  The
    tools left out only read the attributes above. *)
Inductive event :=
| ConnectTool (login : login_behaviour) (ws : websocket_behaviour)
| SocketCallback (cb : ws_callback)
| SubscribeTool (instruments : list string) (api_raises : bool)
| UnsubscribeTool (instruments : list string) (api_raises : bool)
| MarketDataFeed (tick_data : gmap string pyval) (now : spec_float).

Definition step (ev : event) (a : Agent) : Agent :=
match ev with
| ConnectTool login ws => snd (connect_shoonya_broker login ws a)
| SocketCallback cb => if shoonya_api a then on_websocket cb a else a
| SubscribeTool instruments api_raises => subscribe_market_feeds instruments api_raises a
| UnsubscribeTool instruments api_raises => unsubscribe_market_feeds instruments api_raises a
| MarketDataFeed tick_data now =>
    if shoonya_api a then _on_market_data_feed tick_data now a else a
end.

(** The agents a run can produce, from [__init__] on. *)
Inductive reachable : Agent -> Prop :=
| reachable_new api_created : reachable (new_agent api_created)
| reachable_step ev a : reachable a -> reachable (step ev a).

End WithValidator.
End Agent.

(** ** Sample data *)

Module Examples.
Import Py.

(** The double [m * 2^e]. *)
Definition dyadic (m e : Z) : spec_float := binary_normalize prec emax m e false.

Definition repr : Repr := {| float_repr _ := "float" |}.

Definition world : App.World :=
{| App.Quote := unit;
   App.uuid4 n := "uuid-" +:+ pretty n;
   App.new_quote _ _ := ();
   App.drift_quote q _ := q;
   App.world_repr := repr |}.

(** Two touchline ticks for NSE|22: the second carries no volume. *)
Definition first_tick : gmap string pyval :=
{[ "e" := VStr "NSE"; "tk" := VStr "22"; "lp" := VFloat (dyadic 100 0);
   "v" := VInt 500; "t" := VStr "tf" ]}.

Definition second_tick : gmap string pyval :=
{[ "e" := VStr "NSE"; "tk" := VStr "22"; "lp" := VFloat (dyadic 203 (-1));
   "t" := VStr "tf" ]}.

(** A subscription acknowledgement. *)
Definition ack_tick : gmap string pyval :=
{[ "e" := VStr "NSE"; "tk" := VStr "22"; "t" := VStr "tk" ]}.

(** The resource after the first tick, received at time 1. *)
Definition resource_with_tick : Agent.Resource :=
Agent.update_tick (V := Agent.plain_validator) "NSE|22" first_tick (dyadic 1 0) Agent.new_resource.

(** Orders for SBIN-EQ on NSE. *)
Definition limit_order (quantity price : pyval) : gmap string pyval :=
{[ "symbol" := VStr "SBIN-EQ"; "exchange" := VStr "NSE"; "quantity" := quantity;
   "order_type" := VStr "LIMIT"; "transaction_type" := VStr "BUY";
   "product_type" := VStr "CNC"; "price" := price ]}.

Definition market_order (quantity : pyval) : gmap string pyval :=
{[ "symbol" := VStr "SBIN-EQ"; "exchange" := VStr "NSE"; "quantity" := quantity;
   "order_type" := VStr "MARKET"; "transaction_type" := VStr "BUY";
   "product_type" := VStr "CNC" ]}.

(** The double 1250.0 *)
Definition price_1250 : pyval := VFloat (dyadic 1250 0).

(** The double nearest to 5000000/3, a little above it. *)
Definition price_third : spec_float := S754_finite false 7158278826666667 (-32).

Definition order_request (auth : option string) (data : gmap string pyval) : App.Request :=
{| App.authorization := auth;
   App.json := Some {| App.members := data; App.instruments := None |} |}.

(** A request to subscribe to NSE 22. *)
Definition subscribe_request (auth : option string) : App.Request :=
{| App.authorization := auth;
   App.json := Some {| App.members := ∅;
                       App.instruments :=
                         Some [App.InstrumentObject
                                 {[ "exchange" := VStr "NSE"; "token" := VStr "22" ]}] |} |}.

Definition credentials : App.Request :=
{| App.authorization := None;
   App.json := Some {| App.members :=
                         {[ "username" := VStr "user"; "password" := VStr "secret";
                            "client_id" := VStr "client" ]};
                       App.instruments := None |} |}.

Definition session : App.Session :=
{| App.username := VStr "user"; App.client_id := VStr "client";
   App.shoonya_session_id := "mock_shoonya_session_uuid-0" |}.

(** A touchline tick for NSE|22 with last price 123.5. *)
Definition feed_tick : gmap string pyval :=
{[ "e" := VStr "NSE"; "tk" := VStr "22"; "lp" := VFloat (dyadic 247 (-1));
   "t" := VStr "tf" ]}.

(** A login that the broker refuses. *)
Definition refused_login : Agent.login_behaviour :=
Agent.LoginReturns (Some {[ "stat" := VStr "Not_Ok"; "emsg" := VStr "Invalid login credentials" ]}).

(** A login that the broker accepts. *)
Definition accepted_login : Agent.login_behaviour :=
Agent.LoginReturns
  (Some {[ "stat" := VStr "Ok"; "susertoken" := VStr "mock_token_xyz";
           "uid" := VStr "test_uid"; "uname" := VStr "Test User" ]}).

End Examples.

(** ** The merge the specification describes *)

Module Spec.
Import Agent.

(** The specification's field-by-field merge of an update into the tick
    held so far: a field the update carries takes the update's value, a
    field it lacks keeps the earlier value. *)
Definition merge_field {A} (earlier update : option A) : option A :=
match update with
| Some x => Some x
| None => earlier
end.

Definition merge (earlier update : ShoonyaTickData) : ShoonyaTickData :=
{| type := merge_field (type earlier) (type update);
   exchange := merge_field (exchange earlier) (exchange update);
   token := merge_field (token earlier) (token update);
   last_traded_price := merge_field (last_traded_price earlier) (last_traded_price update);
   last_traded_quantity := merge_field (last_traded_quantity earlier) (last_traded_quantity update);
   average_traded_price := merge_field (average_traded_price earlier) (average_traded_price update);
   volume := merge_field (volume earlier) (volume update);
   change_percent := merge_field (change_percent earlier) (change_percent update);
   open_price := merge_field (open_price earlier) (open_price update);
   high_price := merge_field (high_price earlier) (high_price update);
   low_price := merge_field (low_price earlier) (low_price update);
   close_price := merge_field (close_price earlier) (close_price update);
   total_buy_quantity := merge_field (total_buy_quantity earlier) (total_buy_quantity update);
   total_sell_quantity := merge_field (total_sell_quantity earlier) (total_sell_quantity update);
   open_interest := merge_field (open_interest earlier) (open_interest update);
   feed_timestamp := merge_field (feed_timestamp earlier) (feed_timestamp update);
   mcp_received_timestamp := merge_field (mcp_received_timestamp earlier) (mcp_received_timestamp update) |}.

(** The specification's empty tick of [initialize]: it carries only the
    exchange and the token parsed from the key, as
    [test_initialize_instrument] asserts. *)
Definition initial_tick (exch tok : string) : ShoonyaTickData :=
{| type := None; exchange := Some exch; token := Some tok;
   last_traded_price := None; last_traded_quantity := None;
   average_traded_price := None; volume := None; change_percent := None;
   open_price := None; high_price := None; low_price := None;
   close_price := None; total_buy_quantity := None;
   total_sell_quantity := None; open_interest := None;
   feed_timestamp := None; mcp_received_timestamp := None |}.

End Spec.

(** ** The other tools of the agent, [src/shoonya_mcp_agent/agent.py] *)

Module Tools.
Import Py.

(** What a method of [shoonya_api] returns: [None], a dict, or a list of
    dicts. *)
Inductive api_response :=
| RNone
| RDict (d : gmap string pyval)
| RList (items : list (gmap string pyval)).

(** A call of a method of [shoonya_api]: it raises or it returns. *)
Inductive api_outcome :=
| Raises (e : exn)
| Returns (response : api_response).

(** A method of [shoonya_api], by the keyword arguments it is called
    with. *)
Definition Api : Type := gmap string pyval -> api_outcome.



(** [PlaceOrderInput], after pydantic has validated the tool input. *)
Record PlaceOrderInput := {
  buy_or_sell : string;
  product_type : string;
  exchange : string;
  tradingsymbol : string;
  quantity : Z;
  discloseqty : Z;
  price_type : string;
  price : spec_float;
  trigger_price : option spec_float;
  retention : string;
  amo : string;
  remarks : option string
}.

(** An optional member of a dump with [exclude_none=True]. *)
Definition with_optional (key : string) (v : option pyval) (d : gmap string pyval)
  : gmap string pyval :=
match v with
| Some x => <[key := x]> d
| None => d
end.

(** [tool_input.model_dump(by_alias=True, exclude_none=True)] *)
Definition order_dump (i : PlaceOrderInput) : gmap string pyval :=
with_optional "trgprc" (VFloat <$> trigger_price i)
  (with_optional "remarks" (VStr <$> remarks i)
     {[ "trantype" := VStr (buy_or_sell i); "prd" := VStr (product_type i);
        "exch" := VStr (exchange i); "tsym" := VStr (tradingsymbol i);
        "qty" := VInt (quantity i); "dscqty" := VInt (discloseqty i);
        "prctyp" := VStr (price_type i); "prc" := VFloat (price i);
        "ret" := VStr (retention i); "amo" := VStr (amo i) ]}).

(** The dicts [place_order] returns. *)
Inductive order_reply :=
| OrderNotConnected                                  (* status error *)
| OrderPlaced (message : pyval) (order_id : pyval)   (* status success *)
| OrderFailed (error_msg : pyval)                    (* status error, order_id None *)
| OrderException (e : exn).                          (* status error, order_id None *)

(** [response.get(key, default)] *)
Definition get_default (d : gmap string pyval) (key : string) (fallback : string) : pyval :=
default (VStr fallback) (d !! key).

(** [place_order], lines 489-522.  [.get] on a response that is no dict
    raises [AttributeError], which the [except] clause turns into a
    reply. *)
Definition place_order (api : Api) (tool_input : PlaceOrderInput) (a : Agent.Agent)
  : order_reply :=
if negb (Agent._is_connected a) then OrderNotConnected
else
  let order_args := <["actid" := Agent.shoonya_user_id a]> (order_dump tool_input) in
  match api order_args with
  | Raises e => OrderException e
  | Returns (RDict response) =>
      if negb (bool_decide (dom response = ∅)) && eq_str (get response "stat") "Ok"
         && truthy (get response "norenordno")
      then OrderPlaced (get_default response "result" "Order placed successfully.")
             (get response "norenordno")
      else OrderFailed (get_default response "emsg" "Failed to place order with Shoonya.")
  | Returns _ => OrderException AttributeError
  end.

(** The messages of the replies of the list tools. *)
Inductive list_message :=
| BrokerMessage (emsg : pyval)
| UnexpectedFormat.

(** The dicts the list tools return. *)
Inductive list_reply :=
| ListNotConnected
| ListSuccess (items : list (gmap string pyval))
| ListError (message : list_message)
| ListException (e : exn).

(** The branches shared by [get_order_book], [get_positions] and
    [get_holdings]: the first element of the list decides; the entries kept
    are those whose [item_key] is truthy. *)
Definition list_reply_of (item_key default_error : string) (outcome : api_outcome)
  : list_reply :=
match outcome with
| Raises e => ListException e
| Returns (RList ((first :: _) as response)) =>
    if eq_str (get first "stat") "Ok"
    then ListSuccess (filter (fun entry => truthy (get entry item_key)) response)
    else if eq_str (get first "stat") "Not_Ok"
    then ListError (BrokerMessage (get_default first "emsg" default_error))
    else ListError UnexpectedFormat
| Returns (RList []) => ListSuccess []
| Returns _ => ListError UnexpectedFormat
end.

(** [get_order_book], lines 528-557. *)
Definition get_order_book (api : Api) (a : Agent.Agent) : list_reply :=
if negb (Agent._is_connected a) then ListNotConnected
else list_reply_of "norenordno" "Failed to retrieve order book from Shoonya." (api ∅).








End Tools.

(** ** Notions the further statements use *)

Module Notions.
Import Py.




Section Gateway.
Import App.
Context {W : World}.




(** An order in the log of calls went through the validation. *)
Definition validated (c : broker_call) : Prop :=
match c with
| PlaceOrderCall _ body => validate_order (members body) = Ok []
| _ => True
end.

End Gateway.

Section Resource.
Import Agent.
Context {V : Validator}.







End Resource.

Section Runs.
Import Agent.
Context {V : Validator} {R : Repr}.



End Runs.

End Notions.

(** * Properties of the live market-data resource *)

Section ResourceFacts.
Import Py Agent.
Context {V : Validator}.

Lemma in_strs_false (v : pyval) (strs : list string) :
  (forall s, In s strs -> v <> VStr s) -> in_strs v strs = false.
Proof.
  intros H. unfold in_strs. apply not_true_is_false. intros E.
  apply existsb_exists in E. destruct E as (s & Hin & Hs).
  destruct v; simpl in Hs; try discriminate.
  apply String.eqb_eq in Hs. subst. exact (H s Hin eq_refl).
Qed.

Lemma is_data_tick_spec (tick_data : gmap string pyval) :
  is_data_tick tick_data = true <->
  get tick_data "t" = VStr "tf" \/ get tick_data "t" = VStr "df".
Proof.
  unfold is_data_tick, in_strs. simpl. split.
  - intros H. destruct (get tick_data "t"); simpl in H; try discriminate.
    rewrite orb_false_r in H. apply orb_prop in H.
    destruct H as [H|H]; apply String.eqb_eq in H; subst; auto.
  - intros [-> | ->]; reflexivity.
Qed.

(** C5.  A raw tick whose kind [t] is neither ['tf'] nor ['df'] (or is
    missing) leaves the resource as it was: the dict and every stored object
    are unchanged, no entry is created and [notify_update] is not called. *)
Theorem update_tick_ignores_other_kinds
  (instrument_key : string) (tick_data : gmap string pyval) (now : spec_float) (r : Resource) :
  get tick_data "t" <> VStr "tf" ->
  get tick_data "t" <> VStr "df" ->
  update_tick instrument_key tick_data now r = r.
Proof.
  intros Htf Hdf. unfold update_tick.
  destruct (is_data_tick tick_data) eqn:E; [|reflexivity].
  apply is_data_tick_spec in E. destruct E; contradiction.
Qed.

Lemma optional_spec {A} (validate : pyval -> option A) (inj : A -> pyval)
  (raw : option pyval) (o : option A) :
  optional validate raw = Some o ->
  match raw with
  | None | Some VNone => Some VNone
  | Some v => inj <$> validate v
  end = Some (from_option inj VNone o).
Proof.
  destruct raw as [[]|]; simpl; try (intros [= <-]; reflexivity);
    destruct (validate _); simpl; intros [= <-]; reflexivity.
Qed.

Lemma parse_obj_fields (tick_data : gmap string pyval) (t : ShoonyaTickData) :
  parse_obj tick_data = Some t ->
  forall f, field_of_raw f (raw_value tick_data f) = Some (field_value t f).
Proof.
  unfold parse_obj. intros H f.
  repeat match type of H with
  | context [optional ?v ?x] =>
      let E := fresh "E" in
      destruct (optional v x) eqn:E; simpl in H; [|discriminate]
  end.
  injection H as <-.
  destruct f;
    match goal with
    | E : optional _ (raw_value tick_data ?g) = Some _
      |- field_of_raw ?g _ = _ =>
        first [ exact (optional_spec validate_str VStr _ _ E)
              | exact (optional_spec validate_int VInt _ _ E)
              | exact (optional_spec validate_float VFloat _ _ E) ]
    end.
Qed.

Lemma store_new_read (instrument_key : string) (t : ShoonyaTickData) (r : Resource) :
  get_instrument_data instrument_key (store_new instrument_key t r) = Some (allocated r) /\
  deref (store_new instrument_key t r) (allocated r) = Some t.
Proof.
  unfold get_instrument_data, deref, store_new. simpl.
  split; apply lookup_insert_eq.
Qed.

(** C1, as the code has it.  A touchline or depth update whose payload
    validates replaces the tick of its key by the tick parsed from that
    payload alone, stamped with the current time: each field holds what the
    entry under its alias validates to, a field whose alias the payload
    lacks is [None] whatever the earlier tick held (and whatever the payload
    holds under the field's name), and one notification carries the dump of
    the new tick.  A payload that fails validation changes nothing. *)
Theorem update_tick_stores_parsed_tick
  (instrument_key : string) (tick_data : gmap string pyval) (now : spec_float) (r : Resource) :
  is_data_tick tick_data = true ->
  match parse_obj tick_data with
  | Some parsed_tick =>
      let r' := update_tick instrument_key tick_data now r in
      let stored := set_mcp_received_timestamp parsed_tick now in
      read_instrument instrument_key r' = Some stored /\
      (forall f, f <> f_mcp_received_timestamp ->
         field_of_raw f (raw_value tick_data f) = Some (field_value stored f)) /\
      (forall f, f <> f_mcp_received_timestamp ->
         raw_value tick_data f = None -> field_value stored f = VNone) /\
      mcp_received_timestamp stored = Some now /\
      notified r' = notified r ++ [(instrument_key, Some (model_dump stored))]
  | None => update_tick instrument_key tick_data now r = r
  end.
Proof.
  intros Hkind. unfold update_tick. rewrite Hkind. simpl.
  destruct (parse_obj tick_data) as [parsed|] eqn:Hparse; [|reflexivity].
  cbv zeta.
  assert (Hfields : forall f, f <> f_mcp_received_timestamp ->
            field_of_raw f (raw_value tick_data f) =
            Some (field_value (set_mcp_received_timestamp parsed now) f)).
  { intros f Hf. rewrite (parse_obj_fields _ _ Hparse f).
    destruct f; try reflexivity. contradiction. }
  repeat split.
  - unfold read_instrument.
    destruct (store_new_read instrument_key (set_mcp_received_timestamp parsed now) r)
      as [-> Hd].
    exact Hd.
  - exact Hfields.
  - intros f Hf Hraw. specialize (Hfields f Hf). rewrite Hraw in Hfields.
    simpl in Hfields. congruence.
Qed.


(** An assignment through a reference that [get_instrument_data] or
    [get_all_data] returned is an assignment to the stored object. *)
Lemma assignment_through_reference
  (instrument_key : string) (ref : nat) (t : ShoonyaTickData)
  (price : option spec_float) (r : Resource) :
  get_all_data r !! instrument_key = Some ref ->
  deref r ref = Some t ->
  read_instrument instrument_key (assign_last_traded_price ref price r) =
  Some (set_last_traded_price t price).
Proof.
  unfold get_all_data, deref, read_instrument, get_instrument_data,
    assign_last_traded_price.
  simpl. intros -> Ht. simpl. unfold deref. simpl.
  rewrite lookup_alter_eq, Ht. reflexivity.
Qed.




(** The keywords of [ShoonyaTickData(exchange=..., token=...)], read as a
    payload, populate no field: [new_tick] is what [parse_obj] makes of
    them, under every validator. *)
Lemma new_tick_parsed (exch tok : string) :
  parse_obj {[ "exchange" := VStr exch; "token" := VStr tok ]} = Some (new_tick exch tok).
Proof. reflexivity. Qed.


End ResourceFacts.

(** The witnesses and concrete runs of the resource use the validator that
    takes typed values as they are. *)
Section ResourceRuns.
Import Py Agent Examples.
#[local] Existing Instance plain_validator.

Lemma update_tick_ignores_other_kinds_witness :
  get ack_tick "t" <> VStr "tf" /\
  get ack_tick "t" <> VStr "df" /\
  update_tick "NSE|22" ack_tick (dyadic 2 0) resource_with_tick = resource_with_tick.
Proof.
  assert (H1 : get ack_tick "t" <> VStr "tf") by (vm_compute; discriminate).
  assert (H2 : get ack_tick "t" <> VStr "df") by (vm_compute; discriminate).
  split; [exact H1|]. split; [exact H2|].
  exact (update_tick_ignores_other_kinds "NSE|22" ack_tick (dyadic 2 0) resource_with_tick H1 H2).
Defined.

(** C1, refuted as stated: the tick of NSE|22 holds volume 500; a touchline
    update without volume arrives; the stored tick then has no volume, where
    the field-by-field merge keeps 500. *)
Lemma update_tick_forgets_earlier_volume :
  let r' := update_tick "NSE|22" second_tick (dyadic 2 0) resource_with_tick in
  is_data_tick second_tick = true /\
  volume <$> read_instrument "NSE|22" resource_with_tick = Some (Some 500) /\
  raw_value second_tick f_volume = None /\
  volume <$> read_instrument "NSE|22" r' = Some None /\
  exists earlier update,
    read_instrument "NSE|22" resource_with_tick = Some earlier /\
    parse_obj second_tick = Some update /\
    volume (Spec.merge earlier update) = Some 500 /\
    read_instrument "NSE|22" r' <>
      Some (set_mcp_received_timestamp (Spec.merge earlier update) (dyadic 2 0)).
Proof.
  cbv zeta. split; [reflexivity|]. split; [reflexivity|].
  split; [reflexivity|]. split; [reflexivity|].
  destruct (read_instrument "NSE|22" resource_with_tick) as [earlier|] eqn:He;
    [|vm_compute in He; discriminate].
  destruct (parse_obj second_tick) as [update|] eqn:Hu;
    [|vm_compute in Hu; discriminate].
  exists earlier, update.
  vm_compute in He. injection He as <-.
  vm_compute in Hu. injection Hu as <-.
  split; [reflexivity|]. split; [reflexivity|]. split; [reflexivity|].
  intros H. apply (f_equal (fmap volume)) in H. vm_compute in H. discriminate.
Qed.

Lemma update_tick_stores_parsed_tick_witness :
  is_data_tick second_tick = true /\
  match parse_obj second_tick with
  | Some parsed_tick =>
      let r' := update_tick "NSE|22" second_tick (dyadic 2 0) resource_with_tick in
      let stored := set_mcp_received_timestamp parsed_tick (dyadic 2 0) in
      read_instrument "NSE|22" r' = Some stored /\
      (forall f, f <> f_mcp_received_timestamp ->
         field_of_raw f (raw_value second_tick f) = Some (field_value stored f)) /\
      (forall f, f <> f_mcp_received_timestamp ->
         raw_value second_tick f = None -> field_value stored f = VNone) /\
      mcp_received_timestamp stored = Some (dyadic 2 0) /\
      notified r' = notified resource_with_tick ++ [("NSE|22", Some (model_dump stored))]
  | None => update_tick "NSE|22" second_tick (dyadic 2 0) resource_with_tick = resource_with_tick
  end.
Proof.
  split; [reflexivity|].
  exact (update_tick_stores_parsed_tick "NSE|22" second_tick (dyadic 2 0)
           resource_with_tick eq_refl).
Defined.

(** C2, on the run of the repository's test [test_get_all_data]: the tick of
    NSE|22 is stored with price 100.0; the caller takes the dict that
    [get_all_data] returns and assigns 200.0 to the price of its entry; a
    later [get_instrument_data] then reads 200.0, and hands out the same
    reference again. *)
Theorem get_all_data_shares_the_stored_ticks :
  exists ref,
    get_all_data resource_with_tick !! "NSE|22" = Some ref /\
    get_instrument_data "NSE|22" resource_with_tick = Some ref /\
    last_traded_price <$> read_instrument "NSE|22" resource_with_tick
      = Some (Some (dyadic 100 0)) /\
    let r' := assign_last_traded_price ref (Some (dyadic 200 0)) resource_with_tick in
    get_instrument_data "NSE|22" r' = Some ref /\
    last_traded_price <$> read_instrument "NSE|22" r' = Some (Some (dyadic 200 0)).
Proof.
  exists 0%nat. cbv zeta. repeat split; reflexivity.
Qed.

(** C8, on the run of the repository's test [test_initialize_instrument]:
    [initialize_instrument] is called twice on NSE|22 in a new resource.
    The second call changes nothing and one notification is sent in all,
    as the claim says.  But the one tick stored has neither exchange nor
    token, where the claim and the test have NSE and 22, and the
    notification carries the empty dump: line 183 passes [exchange] and
    [token] by field name, and only the aliases [e] and [tk] populate. *)
Theorem initialize_instrument_drops_exchange_and_token :
  let first := initialize_instrument "NSE|22" new_resource in
  let second := initialize_instrument "NSE|22" first.2 in
  split_char "|" "NSE|22" = ["NSE"; "22"] /\
  first.1 = Ok () /\ second.1 = Ok () /\ second.2 = first.2 /\
  exchange <$> read_instrument "NSE|22" second.2 = Some None /\
  token <$> read_instrument "NSE|22" second.2 = Some None /\
  read_instrument "NSE|22" second.2 <> Some (Spec.initial_tick "NSE" "22") /\
  exchange (Spec.initial_tick "NSE" "22") = Some "NSE" /\
  token (Spec.initial_tick "NSE" "22") = Some "22" /\
  notified second.2 = [("NSE|22", Some ∅)].
Proof.
  cbv zeta. do 6 (split; [reflexivity|]). split; [discriminate|].
  repeat split; reflexivity.
Qed.

(** A payload that names its fields in full instead of by alias: nothing is
    populated under the field names.  And the declared kind [t] of a tick
    does not reach the field [type], which has no alias. *)
Example update_tick_reads_aliases_only :
  let tick_data : gmap string pyval :=
    {[ "exchange" := VStr "NSE"; "token" := VStr "22";
       "last_traded_price" := VFloat (dyadic 11 (-1)); "t" := VStr "tf" ]} in
  let r := update_tick "NSE|22" tick_data (dyadic 1 0) new_resource in
  read_instrument "NSE|22" r = Some (set_mcp_received_timestamp empty_tick (dyadic 1 0)) /\
  type <$> read_instrument "NSE|22" resource_with_tick = Some None.
Proof. split; reflexivity. Qed.

End ResourceRuns.

(** * Facts about binary64 arithmetic *)

Section FloatFacts.
Import Py.

Lemma digits2_pos_size (p : positive) : digits2_pos p = Pos.size p.
Proof. induction p; simpl; congruence. Qed.

Lemma Zdigits2_log2 (m : Z) : 0 < m -> Zdigits2 m = Z.log2 m + 1.
Proof.
  destruct m as [|p|p]; try lia. intros _. simpl Zdigits2.
  rewrite digits2_pos_size. destruct p; simpl; lia.
Qed.

Lemma shr_1_m (mrs : shr_record) :
  0 <= shr_m mrs -> shr_m (shr_1 mrs) = shr_m mrs / 2.
Proof.
  destruct mrs as [m r s]. simpl. intros Hm.
  rewrite <- Z.div2_div.
  destruct m as [|p|p]; [reflexivity| |lia]. destruct p; reflexivity.
Qed.

Lemma iter_shr_1_m (p : positive) (mrs : shr_record) :
  0 <= shr_m mrs ->
  shr_m (SpecFloat.iter_pos shr_1 p mrs) = shr_m mrs / 2 ^ Zpos p.
Proof.
  revert mrs. induction p as [p IH|p IH|]; intros mrs Hm; simpl SpecFloat.iter_pos.
  - assert (Hp : 0 < 2 ^ Zpos p) by (apply Z.pow_pos_nonneg; lia).
    assert (H1 : 0 <= shr_m (shr_1 mrs)) by (rewrite shr_1_m by lia; apply Z.div_pos; lia).
    assert (H2 : 0 <= shr_m (SpecFloat.iter_pos shr_1 p (shr_1 mrs)))
      by (rewrite IH by lia; apply Z.div_pos; lia).
    rewrite IH, IH, shr_1_m by lia.
    rewrite Z.div_div, Z.div_div by lia.
    f_equal. replace (Zpos p~1) with (1 + Zpos p + Zpos p) by lia.
    rewrite !Z.pow_add_r by lia. lia.
  - assert (Hp : 0 < 2 ^ Zpos p) by (apply Z.pow_pos_nonneg; lia).
    assert (H2 : 0 <= shr_m (SpecFloat.iter_pos shr_1 p mrs))
      by (rewrite IH by lia; apply Z.div_pos; lia).
    rewrite IH, IH by lia. rewrite Z.div_div by lia.
    f_equal. replace (Zpos p~0) with (Zpos p + Zpos p) by lia.
    rewrite Z.pow_add_r by lia. reflexivity.
  - rewrite shr_1_m by lia. reflexivity.
Qed.

Lemma shr_record_of_loc_m (m : Z) (l : location) : shr_m (shr_record_of_loc m l) = m.
Proof. destruct l as [|[]]; reflexivity. Qed.

Lemma shr_fexp_nonneg (m e : Z) (l : location) :
  0 <= m -> 0 <= shr_m (shr_fexp prec emax m e l).1.
Proof.
  intros Hm. unfold shr_fexp, shr.
  destruct (fexp prec emax (Zdigits2 m + e) - e) as [|p|p]; simpl;
    rewrite ?iter_shr_1_m; rewrite ?shr_record_of_loc_m; try lia.
  apply Z.div_pos; lia.
Qed.

Lemma shr_fexp_pos (m e : Z) (l : location) :
  0 < m -> emin prec emax <= e ->
  0 < shr_m (shr_fexp prec emax m e l).1 /\ emin prec emax <= (shr_fexp prec emax m e l).2.
Proof.
  intros Hm He. unfold shr_fexp, shr.
  destruct (fexp prec emax (Zdigits2 m + e) - e) as [|p|p] eqn:Hn; simpl;
    rewrite ?shr_record_of_loc_m; try lia.
  rewrite iter_shr_1_m by (rewrite shr_record_of_loc_m; lia).
  rewrite shr_record_of_loc_m.
  rewrite Zdigits2_log2 in Hn by lia.
  unfold fexp, emin, prec, emax in *.
  split; [|lia].
  apply Z.div_str_pos. split; [lia|].
  apply Z.log2_le_pow2; lia.
Qed.

Lemma round_nearest_even_le (m : Z) (l : location) : m <= round_nearest_even m l.
Proof. destruct l as [|[]]; simpl; try lia. destruct (Z.even m); lia. Qed.

Lemma binary_round_aux_not_nan (sx : bool) (mx ex : Z) (lx : location) :
  0 <= mx -> binary_round_aux prec emax sx mx ex lx <> S754_nan.
Proof.
  intros Hm. unfold binary_round_aux.
  pose proof (shr_fexp_nonneg mx ex lx Hm) as H1.
  destruct (shr_fexp prec emax mx ex lx) as [mrs' e']. simpl in H1.
  pose proof (round_nearest_even_le (shr_m mrs') (loc_of_shr_record mrs')) as H2.
  pose proof (shr_fexp_nonneg (round_nearest_even (shr_m mrs') (loc_of_shr_record mrs')) e' loc_Exact ltac:(lia)) as H3.
  destruct (shr_fexp prec emax _ e' loc_Exact) as [mrs'' e'']. simpl in H3.
  destruct (shr_m mrs'') as [|p|p]; try discriminate; [|lia].
  destruct (e'' <=? emax - prec); discriminate.
Qed.

Lemma binary_round_aux_pos (sx : bool) (mx ex : Z) (lx : location) :
  0 < mx -> emin prec emax <= ex ->
  (exists m e, binary_round_aux prec emax sx mx ex lx = S754_finite sx m e) \/
  binary_round_aux prec emax sx mx ex lx = S754_infinity sx.
Proof.
  intros Hm He. unfold binary_round_aux.
  destruct (shr_fexp_pos mx ex lx Hm He) as [H1 H1'].
  destruct (shr_fexp prec emax mx ex lx) as [mrs' e']. simpl in H1, H1'.
  pose proof (round_nearest_even_le (shr_m mrs') (loc_of_shr_record mrs')) as H2.
  destruct (shr_fexp_pos (round_nearest_even (shr_m mrs') (loc_of_shr_record mrs')) e' loc_Exact ltac:(lia) H1') as [H3 _].
  destruct (shr_fexp prec emax _ e' loc_Exact) as [mrs'' e'']. simpl in H3.
  destruct (shr_m mrs'') as [|p|p]; try lia.
  destruct (e'' <=? emax - prec); eauto.
Qed.


Lemma round_nearest_even_succ (m : Z) (l : location) : round_nearest_even m l <= m + 1.
Proof. destruct l as [|[]]; simpl; try lia. destruct (Z.even m); lia. Qed.

(** The exponent after a shift, and the weight of the mantissa. *)
Lemma shr_fexp_bounds (m e : Z) (l : location) :
  0 < m -> emin prec emax <= e ->
  (shr_fexp prec emax m e l).2 <= Z.max e (Z.log2 m + e - 52) /\
  Z.log2 (shr_m (shr_fexp prec emax m e l).1) + (shr_fexp prec emax m e l).2
    <= Z.log2 m + e.
Proof.
  intros Hm He. unfold shr_fexp, shr.
  destruct (fexp prec emax (Zdigits2 m + e) - e) as [|p|p] eqn:Hn; simpl;
    rewrite ?shr_record_of_loc_m; try lia.
  rewrite iter_shr_1_m by (rewrite shr_record_of_loc_m; lia).
  rewrite shr_record_of_loc_m.
  rewrite Zdigits2_log2 in Hn by lia.
  unfold fexp, emin, prec, emax in *.
  split; [lia|].
  rewrite <- Z.shiftr_div_pow2 by lia.
  rewrite Z.log2_shiftr by lia. lia.
Qed.

Lemma binary_round_aux_finite (sx : bool) (mx ex : Z) (lx : location) :
  0 < mx -> emin prec emax <= ex -> ex <= emax - prec ->
  Z.log2 mx + ex <= 1022 ->
  exists m e, binary_round_aux prec emax sx mx ex lx = S754_finite sx m e.
Proof.
  intros Hm He He' Hlog. unfold binary_round_aux.
  destruct (shr_fexp_pos mx ex lx Hm He) as [H1 H1'].
  destruct (shr_fexp_bounds mx ex lx Hm He) as [B1 B1'].
  destruct (shr_fexp prec emax mx ex lx) as [mrs' e']. simpl in H1, H1', B1, B1'.
  pose proof (round_nearest_even_le (shr_m mrs') (loc_of_shr_record mrs')) as H2.
  pose proof (round_nearest_even_succ (shr_m mrs') (loc_of_shr_record mrs')) as H2'.
  set (m2 := round_nearest_even (shr_m mrs') (loc_of_shr_record mrs')) in *.
  assert (Hm2 : 0 < m2) by lia.
  assert (Hlog2 : Z.log2 m2 <= Z.log2 (shr_m mrs') + 1).
  { etransitivity; [apply Z.log2_le_mono; exact H2'|].
    rewrite Z.add_1_r. apply Z.log2_succ_le. }
  destruct (shr_fexp_pos m2 e' loc_Exact Hm2 H1') as [H3 _].
  destruct (shr_fexp_bounds m2 e' loc_Exact Hm2 H1') as [B2 _].
  destruct (shr_fexp prec emax m2 e' loc_Exact) as [mrs'' e'']. simpl in H3, B2.
  destruct (shr_m mrs'') as [|p|p]; try lia.
  destruct (Z.leb_spec e'' (emax - prec)) as [_|Hbig]; [eauto|].
  unfold prec, emax in *. lia.
Qed.

Lemma iter_xO (k p : positive) : Zpos (Pos.iter xO p k) = Zpos p * 2 ^ Zpos k.
Proof.
  induction k as [|k IH] using Pos.peano_ind.
  - simpl. lia.
  - rewrite Pos.iter_succ, Pos2Z.inj_xO, IH, Pos2Z.inj_succ, Z.pow_succ_r by lia. lia.
Qed.

(** The aligned mantissa and exponent that [binary_round] rounds, for an
    integer. *)
Lemma shl_align_int (p : positive) :
  let '(mz, ez) := shl_align p 0 (fexp prec emax (Zpos (digits2_pos p) + 0)) in
  emin prec emax <= ez <= 0 /\ Z.log2 (Zpos mz) + ez = Z.log2 (Zpos p).
Proof.
  unfold shl_align.
  pose proof (Zdigits2_log2 (Zpos p) ltac:(lia)) as Hd. simpl Zdigits2 in Hd.
  pose proof (Z.log2_nonneg (Zpos p)) as Hlog.
  destruct (fexp prec emax (Zpos (digits2_pos p) + 0) - 0) as [|k|k] eqn:Hn;
    unfold fexp, emin, prec, emax in *.
  - lia.
  - lia.
  - split; [lia|].
    rewrite iter_xO, Z.log2_mul_pow2 by lia. lia.
Qed.

(** A positive int converts to a positive finite double, or overflows. *)
Lemma float_of_int_pos (q : Z) (fq : spec_float) :
  0 < q -> float_of_int q = Ok fq -> exists m e, fq = S754_finite false m e.
Proof.
  destruct q as [|p|p]; try lia. intros _.
  unfold float_of_int, binary_normalize, binary_round.
  pose proof (shl_align_int p) as Ha.
  destruct (shl_align p 0 _) as [mz ez]. destruct Ha as [Ha _].
  destruct (binary_round_aux_pos false (Zpos mz) ez loc_Exact ltac:(lia) ltac:(lia))
    as [(m & e & ->) | ->]; [|discriminate].
  intros [= <-]. eauto.
Qed.

(** An int below 2^1023 converts. *)
Lemma float_of_int_converts (q : Z) :
  0 < q -> Z.log2 q <= 1022 -> exists m e, float_of_int q = Ok (S754_finite false m e).
Proof.
  destruct q as [|p|p]; try lia. intros _ Hlog.
  unfold float_of_int, binary_normalize, binary_round.
  pose proof (shl_align_int p) as Ha.
  destruct (shl_align p 0 _) as [mz ez]. destruct Ha as [Ha Ha'].
  destruct (binary_round_aux_finite false (Zpos mz) ez loc_Exact)
    as (m & e & ->); unfold emin, emax, prec in *; try lia.
  eauto.
Qed.

(** The product of a positive finite double and a positive double is not
    NaN. *)
Lemma fmul_pos_not_nan (mq : positive) (eq : Z) (f : spec_float) :
  SFltb fzero f = true -> fmul (S754_finite false mq eq) f <> S754_nan.
Proof.
  destruct f as [s|s| |s m e]; simpl; try discriminate.
  intros _. apply binary_round_aux_not_nan. lia.
Qed.

Lemma SFcompare_antisym (x y : spec_float) :
  SFcompare x y = option_map CompOpp (SFcompare y x).
Proof.
  destruct x as [sx|sx| |sx mx ex], y as [sy|sy| |sy my ey]; simpl;
    try reflexivity;
    try (destruct sx; reflexivity); try (destruct sy; reflexivity);
    try (destruct sx, sy; reflexivity).
  destruct sx, sy; simpl; try reflexivity;
    rewrite (Z.compare_antisym ey ex); destruct (ey ?= ex); simpl; try reflexivity;
    rewrite (ZC4 mx my); destruct (Pos.compare_cont Eq my mx); reflexivity.
Qed.

Lemma SFltb_false_leb (x y : spec_float) :
  x <> S754_nan -> y <> S754_nan -> (SFltb x y = false <-> SFleb y x = true).
Proof.
  intros Hx Hy. unfold SFltb, SFleb. rewrite (SFcompare_antisym y x).
  destruct (SFcompare x y) as [[]|] eqn:E; simpl; try (split; congruence).
  destruct x, y; simpl in E; try discriminate; congruence.
Qed.

End FloatFacts.

(** * Properties of the gateway *)

Section GatewayFacts.
Import Py App.
Context {W : World}.

(** ** Authentication *)

(** C4.  When the presented token is absent or is no key of
    [active_sessions], the decorator answers 401 with an error reply and
    leaves every store as it was, whatever the view function is: the view is
    not called.  This holds in particular for the three decorated routes,
    order, subscribe and fetch. *)
Theorem token_required_rejects_unauthenticated (req : Request) (st : State) :
  unauthenticated req st ->
  exists m,
    (m = TokenMissing \/ m = TokenInvalid) /\
    (forall f : View, token_required f req st = (Response (error_reply m) 401, st)) /\
    (forall ep, route ep req st = (Response (error_reply m) 401, st)).
Proof.
  unfold unauthenticated, route, token_required. intros H.
  destruct (bearer_token (authorization req)) as [token|].
  - destruct (String.eqb token "").
    + exists TokenMissing. auto.
    + rewrite (H token eq_refl). exists TokenInvalid. auto.
  - exists TokenMissing. auto.
Qed.

(** A decorated view either refuses and keeps the state, or is the view. *)
Lemma token_required_cases (f : View) (req : Request) (st : State) :
  (exists m, token_required f req st = (Response (error_reply m) 401, st)) \/
  (exists session token,
     active_sessions st !! token = Some session /\
     token_required f req st = f session token req st).
Proof.
  unfold token_required.
  destruct (bearer_token (authorization req)) as [token|]; [|eauto].
  destruct (String.eqb token ""); [eauto|].
  destruct (active_sessions st !! token) eqn:E; eauto.
Qed.

(** ** Order validation *)

Lemma quantity_errors_not_positive (quantity : pyval) :
  not_positive_int quantity ->
  quantity_errors quantity = [QuantityNotPositiveInteger].
Proof.
  unfold not_positive_int, quantity_errors. intros H.
  destruct (as_int quantity) as [q|]; [|reflexivity].
  specialize (H q eq_refl). destruct (Z.leb_spec q 0); [reflexivity|lia].
Qed.

Lemma price_errors_not_positive (order_type quantity price : pyval) :
  not_positive_int quantity ->
  exists errors, price_errors order_type quantity price = Ok errors.
Proof.
  unfold not_positive_int, price_errors. intros H.
  destruct (in_strs order_type _); [|eauto].
  destruct (as_number price) as [p|]; [|eauto].
  destruct (le_const p 0); [eauto|].
  destruct (as_int quantity) as [q|]; [|eauto].
  specialize (H q eq_refl). destruct (Z.ltb_spec 0 q); [lia|].
  rewrite andb_false_r. eauto.
Qed.

Lemma validate_order_not_positive (data : gmap string pyval) :
  not_positive_int (get data "quantity") ->
  exists e errors, validate_order data = Ok (e :: errors).
Proof.
  intros H. unfold validate_order.
  destruct (filter _ required_fields) as [|m ms]; [|eauto].
  destruct (price_errors_not_positive (get data "order_type") _ (get data "price") H)
    as [more ->].
  unfold field_errors. rewrite (quantity_errors_not_positive _ H).
  match goal with |- exists e errors, Ok ?l = _ => destruct l as [|e errors] eqn:E end.
  - exfalso.
    apply app_eq_nil in E as [E _].
    do 4 apply app_eq_nil in E as [_ E].
    discriminate.
  - eauto.
Qed.

(** What [place_order] does with the outcome of the validation. *)
Lemma place_order_rejected (session : Session) (token : string) (req : Request)
  (st : State) (e : order_error) (errors : list order_error) :
  validate_order (order_data req) = Ok (e :: errors) ->
  exists m, place_order session token req st = (Response (rejected_reply m) 400, st).
Proof.
  unfold place_order, order_data. intros H.
  destruct (body_falsy (json req)) eqn:Hbody; [eauto|].
  destruct (json req) as [body|]; [|discriminate]. simpl in *.
  rewrite H. eauto.
Qed.

(** C3.  An order whose quantity is not an int above zero (in Python's
    sense of [isinstance(quantity, int)], which takes [True] for 1), or
    whose validation collects any error, is answered 400 with order status
    [REJECTED_MCP]; the stores and the log of calls to the Shoonya functions
    are unchanged, also when the request comes through the decorated
    route. *)
Theorem place_order_rejects_locally (session : Session) (token : string)
  (req : Request) (st : State) :
  not_positive_int (get (order_data req) "quantity") \/
  (exists e errors, validate_order (order_data req) = Ok (e :: errors)) ->
  (exists reply,
     place_order session token req st = (Response reply 400, st) /\
     status reply = "error" /\
     reply_order_status reply = Some REJECTED_MCP) /\
  (route OrderEndpoint req st).2 = st /\
  broker_calls (route OrderEndpoint req st).2 = broker_calls st.
Proof.
  intros H.
  assert (Hv : exists e errors, validate_order (order_data req) = Ok (e :: errors)).
  { destruct H as [H|H]; [exact (validate_order_not_positive _ H)|exact H]. }
  destruct Hv as (e & errors & Hv).
  assert (Hroute : (route OrderEndpoint req st).2 = st).
  { unfold route.
    destruct (token_required_cases (view OrderEndpoint) req st)
      as [[m ->] | (session' & token' & _ & ->)]; [reflexivity|].
    simpl. destruct (place_order_rejected session' token' req st e errors Hv) as [m ->].
    reflexivity. }
  split; [|split; [exact Hroute|rewrite Hroute; reflexivity]].
  destruct (place_order_rejected session token req st e errors Hv) as [m ->].
  exists (rejected_reply m). auto.
Qed.

(** ** Subscription lists *)

Lemma extend_new_spec (keys tracked : list string) :
  exists added,
    extend_new tracked keys = tracked ++ added /\
    (forall key, key ∈ added -> key ∈ keys /\ key ∉ tracked) /\
    (NoDup tracked -> NoDup (extend_new tracked keys)).
Proof.
  unfold extend_new. revert tracked.
  induction keys as [|k keys IH]; intros tracked; simpl.
  - exists []. rewrite app_nil_r. split; [reflexivity|]. split; [|auto].
    intros key Hk. inversion Hk.
  - case_bool_decide as Hin.
    + destruct (IH tracked) as (added & -> & Hadded & Hnd).
      exists added. split; [reflexivity|]. split; [|exact Hnd].
      intros key Hk. destruct (Hadded key Hk). split; [right|]; assumption.
    + destruct (IH (tracked ++ [k])) as (added & -> & Hadded & Hnd).
      exists (k :: added). split; [rewrite <- app_assoc; reflexivity|]. split.
      * intros key Hk. apply elem_of_cons in Hk as [-> | Hk].
        -- split; [left|assumption].
        -- destruct (Hadded key Hk) as [H1 H2]. split; [right; assumption|].
           intros H. apply H2. apply elem_of_app. left. exact H.
      * intros Htracked. apply Hnd. apply NoDup_app. split; [exact Htracked|].
        split; [|apply NoDup_singleton].
        intros x Hx Hx'. apply list_elem_of_singleton in Hx'. subst. contradiction.
Qed.

Lemma extend_new_tracked (keys tracked : list string) :
  (forall key, key ∈ keys -> key ∈ tracked) ->
  extend_new tracked keys = tracked /\ count_new tracked keys = 0%nat.
Proof.
  intros H. split.
  - destruct (extend_new_spec keys tracked) as (added & -> & Hadded & _).
    destruct added as [|k added]; [apply app_nil_r|].
    destruct (Hadded k) as [Hk Hk']; [left|]. elim Hk'. exact (H k Hk).
  - unfold count_new. induction keys as [|k keys IH]; [reflexivity|].
    rewrite filter_cons. case_decide as Hk.
    + elim Hk. apply H. left.
    + apply IH. intros key Hkey. apply H. right. exact Hkey.
Qed.

Lemma subscribe_loop_keys (insts : list (gmap string pyval))
  (keys : list string) (store : list (string * Quote)) (n : nat) :
  (foldl subscribe_one (keys, store, n) insts).1.1 = keys ++ (instrument_key <$> insts).
Proof.
  revert keys store n. induction insts as [|inst insts IH]; intros keys store n; simpl.
  - symmetry. apply app_nil_r.
  - destruct (store_lookup (instrument_key inst) store); rewrite IH, <- app_assoc; reflexivity.
Qed.

Lemma shoonya_subscribe_spec (session_id : string) (valid : list (gmap string pyval))
  (st : State) :
  client_subscriptions (shoonya_subscribe_market_data session_id valid st).2
    = client_subscriptions st /\
  forall sub_id keys,
    (shoonya_subscribe_market_data session_id valid st).1 = Ok (sub_id, keys) ->
    keys = instrument_key <$> valid.
Proof.
  unfold shoonya_subscribe_market_data.
  destruct valid as [|inst valid]; [split; [reflexivity|discriminate]|].
  pose proof (subscribe_loop_keys (inst :: valid) [] (mock_market_data_store st) (draws st)) as H.
  destruct (foldl subscribe_one _ (inst :: valid)) as [[keys store] n].
  simpl in *. split; [reflexivity|]. intros sub_id keys' [= _ <-]. exact H.
Qed.

(** The subscriptions after a view function: as before, or, after a
    successful subscription, with the caller's list extended. *)
Lemma view_subscriptions (ep : endpoint) (session : Session) (token : string)
  (req : Request) (st : State) :
  client_subscriptions (view ep session token req st).2 = client_subscriptions st \/
  client_subscriptions (view ep session token req st).2 =
    <[token := extend_new (tracked_keys st token) (requested_keys req)]>
      (client_subscriptions st).
Proof.
  destruct ep; simpl.
  - left. unfold place_order.
    destruct (body_falsy (json req)); [reflexivity|].
    destruct (validate_order _) as [[|e errors]|e]; try reflexivity.
    unfold shoonya_place_order. destruct (eq_str _ _); reflexivity.
  - unfold subscribe_market_data, requested_keys, tracked_keys.
    destruct (body_falsy (json req)); [left; reflexivity|].
    destruct (json req ≫= instruments) as [[|i insts]|]; try (left; reflexivity).
    destruct (valid_instruments (i :: insts)) as [[|v valid]|]; try (left; reflexivity).
    destruct (shoonya_subscribe_spec (shoonya_session_id session) (v :: valid) st)
      as [Hsubs Hkeys].
    destruct (shoonya_subscribe_market_data _ (v :: valid) st) as [[[sub_id keys]|reason] st1].
    + right. simpl in *. rewrite Hsubs, (Hkeys sub_id keys eq_refl). reflexivity.
    + left. exact Hsubs.
  - left. unfold fetch_market_data.
    destruct (simulate_changes _ _) as [store n].
    destruct (default [] _); reflexivity.
Qed.

Lemma handle_subscriptions (c : call) (st : State) :
  client_subscriptions (handle c st).2 = client_subscriptions st \/
  exists token keys,
    client_subscriptions (handle c st).2 =
      <[token := extend_new (tracked_keys st token) keys]> (client_subscriptions st).
Proof.
  destruct c as [req|ep req]; simpl.
  - left. unfold connect.
    destruct (body_falsy (json req)); [reflexivity|].
    destruct (negb _); [reflexivity|].
    unfold shoonya_login. destruct (eq_str _ _); reflexivity.
  - unfold route.
    destruct (token_required_cases (view ep) req st)
      as [[m ->] | (session & token & _ & ->)]; [left; reflexivity|].
    destruct (view_subscriptions ep session token req st) as [H|H]; eauto.
Qed.

Lemma handle_no_repeats (c : call) (st : State) :
  no_repeats st -> no_repeats (handle c st).2.
Proof.
  unfold no_repeats, tracked_keys. intros H token.
  destruct (handle_subscriptions c st) as [-> | (token' & keys & ->)]; [apply H|].
  destruct (decide (token' = token)) as [->|Hne].
  - rewrite lookup_insert_eq. simpl.
    destruct (extend_new_spec keys (tracked_keys st token)) as (_ & _ & _ & Hnd).
    apply Hnd, H.
  - rewrite lookup_insert_ne by exact Hne. apply H.
Qed.

Lemma run_no_repeats (calls : list call) (st : State) :
  no_repeats st -> no_repeats (run calls st).
Proof.
  unfold run. revert st. induction calls as [|c calls IH]; intros st H; simpl.
  - exact H.
  - apply IH, handle_no_repeats, H.
Qed.

(** C9.  After any sequence of requests to a freshly started server, no
    caller's subscription list holds a key twice.  A successful subscription
    appends to the caller's list keys that were requested and not tracked,
    and reports the number of requested keys that were not tracked; when
    every requested key was tracked already, the list is unchanged and the
    number reported is zero. *)
Theorem subscription_lists_never_repeat :
  (forall calls token, NoDup (tracked_keys (run calls initial_state) token)) /\
  (forall session token req st reply st',
     subscribe_market_data session token req st = (Response reply 200, st') ->
     let tracked := tracked_keys st token in
     let keys := requested_keys req in
     tracked_keys st' token = extend_new tracked keys /\
     reply_message reply = SubscribedTracking (count_new tracked keys) (length (extend_new tracked keys)) /\
     (exists added,
        extend_new tracked keys = tracked ++ added /\
        forall key, key ∈ added -> key ∈ keys /\ key ∉ tracked) /\
     ((forall key, key ∈ keys -> key ∈ tracked) ->
        tracked_keys st' token = tracked /\
        reply_message reply = SubscribedTracking 0 (length tracked))).
Proof.
  split.
  - intros calls token. apply run_no_repeats.
    intros token'. unfold tracked_keys, initial_state. simpl.
    rewrite lookup_empty. apply NoDup_nil_2.
  - intros session token req st reply st' Hsub. cbv zeta.
    assert (H : tracked_keys st' token = extend_new (tracked_keys st token) (requested_keys req) /\
                reply_message reply =
                  SubscribedTracking (count_new (tracked_keys st token) (requested_keys req))
                    (length (extend_new (tracked_keys st token) (requested_keys req)))).
    { revert Hsub. unfold subscribe_market_data, requested_keys, tracked_keys.
      destruct (body_falsy (json req)); [intros [=]|].
      destruct (json req ≫= instruments) as [[|i insts]|]; try solve [intros [=]].
      destruct (valid_instruments (i :: insts)) as [[|v valid]|]; try solve [intros [=]].
      destruct (shoonya_subscribe_spec (shoonya_session_id session) (v :: valid) st)
        as [Hsubs Hkeys].
      destruct (shoonya_subscribe_market_data _ (v :: valid) st)
        as [[[sub_id keys]|reason] st1]; [|intros [=]].
      simpl in *. rewrite (Hkeys sub_id keys eq_refl), Hsubs.
      intros [= <- <-]. simpl. rewrite lookup_insert_eq. auto. }
    destruct H as [Htracked Hmsg].
    split; [exact Htracked|]. split; [exact Hmsg|]. split.
    + destruct (extend_new_spec (requested_keys req) (tracked_keys st token))
        as (added & Hadd & Hadded & _). eauto.
    + intros Hall.
      destruct (extend_new_tracked _ _ Hall) as [He Hc].
      rewrite Htracked, Hmsg, He, Hc. auto.
Qed.

End GatewayFacts.

(** ** Risk limits *)

Section GatewayLimits.
Import Py App.
Context {W : World}.

Lemma complete_no_missing (data : gmap string pyval) :
  complete data ->
  filter (fun field => bool_decide (data !! field = None)) required_fields = [].
Proof.
  intros H.
  assert (Hall : forall fields, (forall f, In f fields -> is_Some (data !! f)) ->
            filter (fun field => bool_decide (data !! field = None)) fields = []).
  { induction fields as [|f fields IH]; intros Hin; [reflexivity|].
    rewrite filter_cons.
    destruct (Hin f (or_introl eq_refl)) as [v Hv].
    case_decide as Hd.
    - apply bool_decide_unpack in Hd. congruence.
    - apply IH. intros g Hg. apply Hin. right. exact Hg. }
  apply Hall. exact H.
Qed.

Lemma validate_order_complete (data : gmap string pyval) :
  complete data ->
  validate_order data =
  match price_errors (get data "order_type") (get data "quantity") (get data "price") with
  | Ok more => Ok (field_errors data ++ more)
  | Error e => Error e
  end.
Proof.
  intros H. unfold validate_order. rewrite (complete_no_missing data H). reflexivity.
Qed.

Lemma field_errors_value (data : gmap string pyval) :
  existsb is_value_error (field_errors data) = false.
Proof.
  unfold field_errors, quantity_errors. rewrite !existsb_app.
  repeat match goal with |- context [if ?b then _ else _] => destruct b end;
    try reflexivity;
    destruct (as_int _); try reflexivity;
    repeat match goal with |- context [if ?b then _ else _] => destruct b end;
    reflexivity.
Qed.

Lemma field_errors_ceiling (data : gmap string pyval) :
  existsb is_ceiling_error (field_errors data) =
  existsb is_ceiling_error (quantity_errors (get data "quantity")).
Proof.
  unfold field_errors. rewrite !existsb_app.
  repeat match goal with |- context [if in_strs ?v ?l then _ else _] => destruct (in_strs v l) end;
    reflexivity.
Qed.

Lemma price_errors_ceiling (order_type quantity price : pyval) (more : list order_error) :
  price_errors order_type quantity price = Ok more ->
  existsb is_ceiling_error more = false.
Proof.
  unfold price_errors.
  repeat match goal with
  | |- context [if ?b then _ else _] => destruct b
  | |- context [match ?x with _ => _ end] => destruct x
  end; intros [= <-]; reflexivity.
Qed.

Lemma positive_int_truthy (quantity : pyval) (q : Z) :
  as_int quantity = Some q -> 0 < q -> truthy quantity && (0 <? q) = true.
Proof.
  intros Hq Hpos. destruct quantity as [|b|z|f|s]; simpl in Hq; try discriminate;
    injection Hq as <-; simpl.
  - destruct b; simpl in *; [reflexivity|lia].
  - destruct (Z.eqb_spec z 0), (Z.ltb_spec 0 z); simpl; try reflexivity; lia.
Qed.

Lemma positive_not_le_zero (p : number) : gt_const p 0 = true -> le_const p 0 = false.
Proof.
  destruct p as [z|f]; simpl.
  - intros H. apply Z.ltb_lt in H. apply Z.leb_gt. exact H.
  - change (float_of_small_int 0) with fzero.
    destruct f as [s|s| |s m e]; try destruct s; cbv [SFltb SFleb SFcompare fzero];
      congruence.
Qed.

(** The price check of a LIMIT or SL order with a positive int quantity and
    a positive price: the outcome of the product decides. *)
Lemma price_errors_priced (order_type quantity price : pyval) (q : Z) (p : number) :
  in_strs order_type ["LIMIT"; "SL"] = true ->
  as_int quantity = Some q -> 0 < q ->
  as_number price = Some p -> gt_const p 0 = true ->
  price_errors order_type quantity price =
  match mul_int q p with
  | Ok order_value =>
      if gt_const order_value MAX_ORDER_VALUE
      then Ok [OrderValueExceedsMaximum order_value quantity price]
      else Ok []
  | Error e => Error e
  end.
Proof.
  intros Hot Hq Hpos Hp Hppos. unfold price_errors.
  rewrite Hot, Hp, (positive_not_le_zero p Hppos), Hq, (positive_int_truthy _ _ Hq Hpos).
  reflexivity.
Qed.

(** For the product of a positive int and a positive price, not being
    above the limit is being at most the limit. *)
Lemma product_within_limit (q : Z) (p v : number) :
  0 < q -> gt_const p 0 = true -> mul_int q p = Ok v ->
  (gt_const v MAX_ORDER_VALUE = false <-> le_const v MAX_ORDER_VALUE = true).
Proof.
  intros Hq Hp. destruct p as [z|f]; simpl.
  - intros [= <-]. simpl. rewrite Z.ltb_ge, Z.leb_le. reflexivity.
  - destruct (float_of_int q) as [fq|e] eqn:Hfq; [|discriminate].
    intros [= <-]. simpl.
    destruct (float_of_int_pos q fq Hq Hfq) as (mq & eq & ->).
    apply SFltb_false_leb; [discriminate|].
    apply fmul_pos_not_nan. exact Hp.
Qed.


Lemma price_errors_returns (order_type quantity price : pyval) (q : Z) :
  as_int quantity = Some q -> 0 < q -> Z.log2 q <= 1022 ->
  exists more, price_errors order_type quantity price = Ok more.
Proof.
  intros Hq Hpos Hlog. unfold price_errors. rewrite Hq.
  destruct (in_strs order_type _); [|eauto].
  destruct (as_number price) as [p|]; [|eauto].
  destruct (le_const p 0); [eauto|].
  destruct (truthy quantity && (0 <? q)); [|eauto].
  destruct p as [z|f]; unfold mul_int.
  - destruct (gt_const _ _); eauto.
  - destruct (float_of_int_converts q Hpos Hlog) as (m & e & ->).
    destruct (gt_const _ _); eauto.
Qed.

Lemma quantity_errors_positive (quantity : pyval) (q : Z) :
  as_int quantity = Some q -> 0 < q ->
  quantity_errors quantity =
  if MAX_ORDER_QUANTITY <? q then [QuantityExceedsMaximum quantity] else [].
Proof.
  intros Hq Hpos. unfold quantity_errors. rewrite Hq.
  destruct (Z.leb_spec q 0); [lia|reflexivity].
Qed.

(** C6.  For an order that has every required field and an int quantity
    above zero: the validation returns without a quantity-ceiling error
    exactly when the quantity is at most 100000; above it, every list of
    errors the validation returns holds the ceiling error for that quantity;
    and an order that passes the whole validation reaches
    [shoonya_place_order] with the body as it was sent, quantity included. *)
Theorem quantity_ceiling (data : gmap string pyval) (q : Z) :
  complete data ->
  as_int (get data "quantity") = Some q ->
  0 < q ->
  (passes_ceiling data <-> q <= MAX_ORDER_QUANTITY) /\
  (MAX_ORDER_QUANTITY < q ->
     forall errors, validate_order data = Ok errors ->
     In (QuantityExceedsMaximum (get data "quantity")) errors) /\
  (forall session token req st,
     order_data req = data -> validate_order data = Ok [] ->
     exists body,
       json req = Some body /\ members body = data /\
       broker_calls (place_order session token req st).2 =
         broker_calls st ++ [PlaceOrderCall (shoonya_session_id session) body]).
Proof.
  intros Hcomplete Hq Hpos.
  pose proof (validate_order_complete data Hcomplete) as Hv.
  pose proof (quantity_errors_positive _ q Hq Hpos) as Hqe.
  split; [|split].
  - unfold passes_ceiling. split.
    + intros (errors & Herrors & Hnone).
      destruct (Z.ltb_spec MAX_ORDER_QUANTITY q) as [Hbig|]; [|assumption].
      exfalso. rewrite Hv in Herrors.
      destruct (price_errors _ _ _) as [more|e]; [|discriminate].
      injection Herrors as <-.
      rewrite existsb_app, field_errors_ceiling, Hqe in Hnone.
      discriminate.
    + intros Hle.
      assert (Hlog : Z.log2 q <= 1022).
      { etransitivity; [apply Z.log2_le_mono; exact Hle|]. vm_compute. discriminate. }
      destruct (price_errors_returns (get data "order_type") _ (get data "price") q Hq Hpos Hlog)
        as [more Hmore].
      exists (field_errors data ++ more). rewrite Hv, Hmore. split; [reflexivity|].
      rewrite existsb_app, field_errors_ceiling, Hqe, (price_errors_ceiling _ _ _ _ Hmore).
      destruct (Z.ltb_spec MAX_ORDER_QUANTITY q); [lia|reflexivity].
  - intros Hbig errors Herrors. rewrite Hv in Herrors.
    destruct (price_errors _ _ _) as [more|e]; [|discriminate].
    injection Herrors as <-.
    apply in_or_app. left. unfold field_errors. rewrite Hqe.
    destruct (Z.ltb_spec MAX_ORDER_QUANTITY q); [|lia].
    do 4 (apply in_or_app; right). left. reflexivity.
  - intros session token req st Hdata Hvalid. unfold place_order.
    destruct (json req) as [body|] eqn:Hbody.
    + unfold order_data in Hdata. rewrite Hbody in Hdata. simpl in Hdata.
      exists body. split; [reflexivity|]. split; [exact Hdata|].
      destruct (body_falsy (Some body)) eqn:Hfalsy.
      * exfalso. simpl in Hfalsy. apply andb_prop in Hfalsy as [Hdom _].
        apply bool_decide_eq_true in Hdom.
        destruct (Hcomplete "symbol") as [v Hsym]; [left; reflexivity|].
        rewrite <- Hdata in Hsym. apply (elem_of_dom_2 (D := gset string)) in Hsym.
        rewrite Hdom in Hsym. exact (not_elem_of_empty _ Hsym).
      * simpl. rewrite Hdata, Hvalid. unfold shoonya_place_order.
        destruct (eq_str _ _); reflexivity.
    + exfalso. unfold order_data in Hdata. rewrite Hbody in Hdata. simpl in Hdata.
      destruct (Hcomplete "symbol") as [v Hsym]; [left; reflexivity|].
      rewrite <- Hdata, lookup_empty in Hsym. discriminate.
Qed.

(** C7.  For an order that has every required field: when the order type
    is LIMIT or SL, the quantity an int above zero and the price a number
    above zero, the validation returns without an order-value error exactly
    when the product [quantity * price], as Python computes it, exists and
    is at most 5000000; when the order type is MARKET or SL-M, the
    validation returns without an order-value error whatever the quantity
    and the price are. *)
Theorem notional_check (data : gmap string pyval) :
  complete data ->
  (forall q p,
     in_strs (get data "order_type") ["LIMIT"; "SL"] = true ->
     as_int (get data "quantity") = Some q -> 0 < q ->
     as_number (get data "price") = Some p -> gt_const p 0 = true ->
     (passes_notional data <->
      exists order_value, mul_int q p = Ok order_value /\
                          le_const order_value MAX_ORDER_VALUE = true)) /\
  (in_strs (get data "order_type") ["MARKET"; "SL-M"] = true ->
   passes_notional data).
Proof.
  intros Hcomplete.
  pose proof (validate_order_complete data Hcomplete) as Hv.
  unfold passes_notional. split.
  - intros q p Hot Hq Hpos Hp Hppos.
    rewrite Hv, (price_errors_priced _ _ _ q p Hot Hq Hpos Hp Hppos).
    destruct (mul_int q p) as [v|e] eqn:Hmul.
    + pose proof (product_within_limit q p v Hpos Hppos Hmul) as Hlimit.
      destruct (gt_const v MAX_ORDER_VALUE) eqn:Hgt.
      * split.
        -- intros (errors & [= <-] & Hnone).
           rewrite existsb_app, field_errors_value in Hnone. discriminate.
        -- intros (v' & [= <-] & Hle). apply Hlimit in Hle. discriminate.
      * split.
        -- intros _. exists v. split; [reflexivity|]. apply Hlimit. reflexivity.
        -- intros _. exists (field_errors data ++ []). split; [reflexivity|].
           rewrite existsb_app, field_errors_value. reflexivity.
    + split.
      * intros (errors & [=] & _).
      * intros (v & [=] & _).
  - intros Hot.
    assert (Hnot : in_strs (get data "order_type") ["LIMIT"; "SL"] = false).
    { revert Hot. unfold in_strs. destruct (get data "order_type") as [| | | |s]; simpl;
        try discriminate.
      rewrite !orb_false_r. intros H. apply orb_prop in H.
      destruct H as [H|H]; apply String.eqb_eq in H; subst; reflexivity. }
    rewrite Hv. unfold price_errors. rewrite Hnot.
    exists (field_errors data ++ []). split; [reflexivity|].
    rewrite existsb_app, field_errors_value. reflexivity.
Qed.

End GatewayLimits.

(** ** Runs of the gateway *)

Section GatewayRuns.
Import Py App Examples.
#[local] Existing Instance world.

(** The server after one successful [/connect]; the session token drawn is
    [uuid-1]. *)
Lemma connected_sessions :
  active_sessions (run [Connect credentials] initial_state) !! "uuid-1" = Some session /\
  active_sessions (run [Connect credentials] initial_state) !! "wrong" = None.
Proof. split; reflexivity. Qed.

Lemma token_required_rejects_unauthenticated_witness :
  let st := run [Connect credentials] initial_state in
  let req := order_request (Some "Bearer wrong") (market_order (VInt 10)) in
  unauthenticated req st /\
  exists m,
    (m = TokenMissing \/ m = TokenInvalid) /\
    (forall f : View, token_required f req st = (Response (error_reply m) 401, st)) /\
    (forall ep, route ep req st = (Response (error_reply m) 401, st)).
Proof.
  cbv zeta.
  assert (H : unauthenticated (order_request (Some "Bearer wrong") (market_order (VInt 10)))
                (run [Connect credentials] initial_state)).
  { intros token Htoken. vm_compute in Htoken. injection Htoken as <-. reflexivity. }
  split; [exact H|].
  exact (token_required_rejects_unauthenticated _ _ H).
Defined.

Lemma place_order_rejects_locally_witness :
  let st := run [Connect credentials] initial_state in
  let req := order_request (Some "Bearer uuid-1") (limit_order (VInt 0) price_1250) in
  not_positive_int (get (order_data req) "quantity") /\
  (exists reply,
     place_order session "uuid-1" req st = (Response reply 400, st) /\
     status reply = "error" /\
     reply_order_status reply = Some REJECTED_MCP) /\
  (route OrderEndpoint req st).2 = st /\
  broker_calls (route OrderEndpoint req st).2 = broker_calls st.
Proof.
  cbv zeta.
  assert (H : not_positive_int
                (get (order_data (order_request (Some "Bearer uuid-1")
                                    (limit_order (VInt 0) price_1250))) "quantity")).
  { intros q Hq. vm_compute in Hq. injection Hq as <-. lia. }
  split; [exact H|].
  exact (place_order_rejects_locally session "uuid-1" _ _ (or_introl H)).
Defined.


Ltac show_complete :=
  let field := fresh "field" in
  let Hin := fresh "Hin" in
  intros field Hin; simpl in Hin;
  repeat (destruct Hin as [<-|Hin]; [eexists; vm_compute; reflexivity|]);
  destruct Hin.

Lemma limit_order_complete (quantity price : pyval) : complete (limit_order quantity price).
Proof. show_complete. Qed.

Lemma market_order_complete (quantity : pyval) : complete (market_order quantity).
Proof. show_complete. Qed.

(** The message of a local rejection joins every error collected, in the
    order the code appends them; a single error is the whole message. *)
Example rejected_order_lists_every_error :
  let st := run [Connect credentials] initial_state in
  let two : gmap string pyval :=
    <["exchange" := VStr "XYZ"]> (limit_order (VInt 0) price_1250) in
  (place_order session "uuid-1" (order_request (Some "Bearer uuid-1") two) st).1 =
    Response (rejected_reply
                (ValidationErrors [InvalidExchange; QuantityNotPositiveInteger])) 400 /\
  (place_order session "uuid-1"
     (order_request (Some "Bearer uuid-1") (market_order (VInt 100001))) st).1 =
    Response (rejected_reply
                (ValidationErrors [QuantityExceedsMaximum (VInt 100001)])) 400.
Proof. split; reflexivity. Qed.

(** The order of 100000 units passes the validation; 100001 units collect
    the ceiling error. *)
Example validate_at_quantity_ceiling :
  validate_order (market_order (VInt 100000)) = Ok [] /\
  validate_order (market_order (VInt 100001)) = Ok [QuantityExceedsMaximum (VInt 100001)].
Proof. split; reflexivity. Qed.

Lemma quantity_ceiling_witness :
  complete (market_order (VInt 100000)) /\
  as_int (get (market_order (VInt 100000)) "quantity") = Some 100000 /\
  0 < 100000 /\
  passes_ceiling (market_order (VInt 100000)) /\
  ~ passes_ceiling (market_order (VInt 100001)).
Proof.
  split; [apply market_order_complete|]. split; [reflexivity|]. split; [lia|].
  split.
  - apply (quantity_ceiling (market_order (VInt 100000)) 100000
             (market_order_complete _) eq_refl ltac:(lia)).
    unfold MAX_ORDER_QUANTITY. lia.
  - intros H.
    apply (quantity_ceiling (market_order (VInt 100001)) 100001
             (market_order_complete _) eq_refl ltac:(lia)) in H.
    unfold MAX_ORDER_QUANTITY in H. lia.
Defined.

(** 4000 units at 1250.0 pass the validation; 4001 units collect the
    order-value error, on the product 5001250.0. *)
Example validate_at_notional_ceiling :
  validate_order (limit_order (VInt 4000) price_1250) = Ok [] /\
  validate_order (limit_order (VInt 4001) price_1250) =
    Ok [OrderValueExceedsMaximum (NFloat (dyadic 5001250 0)) (VInt 4001) price_1250].
Proof. split; reflexivity. Qed.

Lemma notional_check_witness :
  complete (limit_order (VInt 4000) price_1250) /\
  in_strs (get (limit_order (VInt 4000) price_1250) "order_type") ["LIMIT"; "SL"] = true /\
  as_int (get (limit_order (VInt 4000) price_1250) "quantity") = Some 4000 /\
  0 < 4000 /\
  as_number (get (limit_order (VInt 4000) price_1250) "price") = Some (NFloat (dyadic 1250 0)) /\
  gt_const (NFloat (dyadic 1250 0)) 0 = true /\
  passes_notional (limit_order (VInt 4000) price_1250) /\
  ~ passes_notional (limit_order (VInt 4001) price_1250) /\
  in_strs (get (market_order (VInt 4001)) "order_type") ["MARKET"; "SL-M"] = true /\
  passes_notional (market_order (VInt 4001)).
Proof.
  split; [apply limit_order_complete|].
  do 5 (split; [first [reflexivity | lia]|]).
  destruct (notional_check (limit_order (VInt 4000) price_1250) (limit_order_complete _ _))
    as [Hpass _].
  destruct (notional_check (limit_order (VInt 4001) price_1250) (limit_order_complete _ _))
    as [Hfail _].
  destruct (notional_check (market_order (VInt 4001)) (market_order_complete _))
    as [_ Hmarket].
  split; [|split; [|split; [reflexivity|exact (Hmarket eq_refl)]]].
  - apply (Hpass 4000 (NFloat (dyadic 1250 0)) eq_refl eq_refl ltac:(lia) eq_refl eq_refl).
    eexists. split; reflexivity.
  - intros H.
    apply (Hfail 4001 (NFloat (dyadic 1250 0)) eq_refl eq_refl ltac:(lia) eq_refl eq_refl) in H.
    destruct H as (v & Hv & Hle). vm_compute in Hv. injection Hv as <-.
    vm_compute in Hle. discriminate.
Defined.

(** An order that passes the validation reaches [shoonya_place_order]
    once and is answered 200 with status [SENT_TO_BROKER]. *)
Example order_reaches_broker :
  let st := run [Connect credentials] initial_state in
  let req := order_request (Some "Bearer uuid-1") (limit_order (VInt 4000) price_1250) in
  exists reply st',
    route OrderEndpoint req st = (Response reply 200, st') /\
    reply_order_status reply = Some SENT_TO_BROKER /\
    length (broker_calls st') = S (length (broker_calls st)).
Proof. cbv zeta. eexists _, _. repeat split; reflexivity. Qed.

(** The limit of the order value as a double is exact. *)
Example max_order_value_exact :
  float_of_small_int MAX_ORDER_VALUE = S754_finite false 5368709120000000 (-30) /\
  5368709120000000 = MAX_ORDER_VALUE * 2 ^ 30.
Proof. split; reflexivity. Qed.

(** The product is the rounded one: 3 units at the double next above
    5000000/3 give exactly 5000000.0 and pass. *)
Example notional_check_rounds :
  price_third = S754_finite false 7158278826666667 (-32) /\
  3 * 7158278826666667 = 5000000 * 2 ^ 32 + 1 /\
  mul_int 3 (NFloat price_third) = Ok (NFloat (dyadic 5000000 0)) /\
  validate_order (limit_order (VInt 3) (VFloat price_third)) = Ok [].
Proof. repeat split; reflexivity. Qed.

(** [True] is an int for [isinstance]: the order goes through with
    quantity 1. *)
Example validate_accepts_true :
  validate_order (market_order (VBool true)) = Ok [].
Proof. reflexivity. Qed.

(** A product too large for a double stops the view with
    [OverflowError]. *)
Example validate_overflows :
  validate_order (limit_order (VInt (2 ^ 1024)) price_1250) = Error OverflowError.
Proof. reflexivity. Qed.

(** A key requested twice in one call is appended once and counted
    twice. *)
Example repeated_key_in_one_request :
  extend_new [] ["NSE_22"; "NSE_22"] = ["NSE_22"] /\
  count_new [] ["NSE_22"; "NSE_22"] = 2%nat.
Proof. split; reflexivity. Qed.

Lemma subscription_lists_never_repeat_witness :
  let calls := [Connect credentials; Call SubscribeEndpoint (subscribe_request (Some "Bearer uuid-1"))] in
  let st := run calls initial_state in
  let outcome := subscribe_market_data session "uuid-1" (subscribe_request (Some "Bearer uuid-1")) st in
  tracked_keys st "uuid-1" = ["NSE_22"] /\
  requested_keys (subscribe_request (Some "Bearer uuid-1")) = ["NSE_22"] /\
  NoDup (tracked_keys st "uuid-1") /\
  exists reply st',
    outcome = (Response reply 200, st') /\
    tracked_keys st' "uuid-1" = ["NSE_22"] /\
    reply_message reply = SubscribedTracking 0 1.
Proof.
  cbv zeta.
  destruct subscription_lists_never_repeat as [Hinv Hsub].
  split; [reflexivity|]. split; [reflexivity|]. split; [apply Hinv|].
  destruct (subscribe_market_data session "uuid-1" (subscribe_request (Some "Bearer uuid-1"))
              (run [Connect credentials;
                    Call SubscribeEndpoint (subscribe_request (Some "Bearer uuid-1"))]
                 initial_state)) as [[reply code|e] st'] eqn:E;
    [|vm_compute in E; discriminate].
  assert (Hcode : code = 200%nat) by (vm_compute in E; congruence).
  subst code. exists reply, st'. split; [reflexivity|].
  destruct (Hsub _ _ _ _ _ _ E) as (_ & _ & _ & Hall).
  apply Hall. intros key Hkey.
  change (key ∈ ["NSE_22"]) in Hkey. change (key ∈ ["NSE_22"]). exact Hkey.
Defined.

End GatewayRuns.

(** * Properties of the agent *)

Section AgentFacts.
Import Py Agent.
Context {V : Validator} {R : Repr}.

Lemma callbacks_keep_login (fired : list ws_callback) (a : Agent) :
  let a' := foldl (fun a cb => on_websocket cb a) a fired in
  shoonya_api a' = shoonya_api a /\
  shoonya_user_token a' = shoonya_user_token a /\
  shoonya_user_id a' = shoonya_user_id a /\
  shoonya_username a' = shoonya_username a.
Proof.
  cbv zeta. revert a. induction fired as [|cb fired IH]; intros a; simpl; [auto|].
  destruct (IH (on_websocket cb a)) as (-> & -> & -> & ->).
  destruct cb; auto.
Qed.

Lemma connect_keeps_api (login : login_behaviour) (ws : websocket_behaviour) (a : Agent) :
  shoonya_api (connect_shoonya_broker login ws a).2 = shoonya_api a.
Proof.
  unfold connect_shoonya_broker.
  destruct (negb (shoonya_api a)); [reflexivity|].
  destruct (_is_connected a && websocket_connected a); [reflexivity|].
  destruct login as [e|[response|]]; try reflexivity.
  destruct (negb _ && _); [|reflexivity].
  destruct ws as [fired e|fired].
  - simpl. apply (callbacks_keep_login fired (record_login response a)).
  - destruct (websocket_connected _); simpl;
      apply (callbacks_keep_login fired (record_login response a)).
Qed.

Lemma subscribe_keeps_session (instruments : list string) (api_raises : bool) (a : Agent) :
  let a' := subscribe_market_feeds instruments api_raises a in
  shoonya_api a' = shoonya_api a /\ (no_session a -> no_session a').
Proof.
  cbv zeta. unfold subscribe_market_feeds.
  destruct (negb (_is_connected a)); [auto|].
  destruct (negb (websocket_connected a)); [auto|].
  destruct api_raises; [auto|].
  destruct (foldl _ _ instruments) as [tracked r]. auto.
Qed.

Lemma unsubscribe_keeps_session (instruments : list string) (api_raises : bool) (a : Agent) :
  let a' := unsubscribe_market_feeds instruments api_raises a in
  shoonya_api a' = shoonya_api a /\ (no_session a -> no_session a').
Proof.
  cbv zeta. unfold unsubscribe_market_feeds.
  destruct (negb (_is_connected a)); [auto|].
  destruct api_raises; [auto|].
  destruct (foldl _ _ instruments) as [tracked r]. auto.
Qed.

(** An agent whose [ShoonyaApiPy] object could not be created never gets a
    session: its connect tool returns at once and no callback fires. *)
Lemma no_api_no_session (a : Agent) :
  reachable a -> shoonya_api a = false -> no_session a.
Proof.
  induction 1 as [api_created|ev a Hreach IH].
  - intros _. unfold no_session. simpl. auto.
  - destruct ev as [login ws|cb|instruments api_raises|instruments api_raises|tick now];
      simpl.
    + rewrite connect_keeps_api. intros Hapi.
      unfold connect_shoonya_broker. rewrite Hapi. simpl. auto.
    + destruct (shoonya_api a) eqn:Hapi; [|auto].
      destruct cb; simpl; rewrite Hapi; discriminate.
    + destruct (subscribe_keeps_session instruments api_raises a) as [-> Hkeep]. auto.
    + destruct (unsubscribe_keeps_session instruments api_raises a) as [-> Hkeep]. auto.
    + destruct (shoonya_api a) eqn:Hapi; [|rewrite Hapi; exact IH].
      unfold _on_market_data_feed.
      destruct (feed_key tick) as [key|]; [|rewrite Hapi; discriminate].
      destruct (negb _ && _); simpl; rewrite Hapi; discriminate.
Qed.

(** C10.  Whenever [connect_shoonya_broker] returns a dict with status
    [error], on an agent that a run from [__init__] can produce, the token,
    the user id and the user name are [None] afterwards and
    [websocket_connected] is [False]. *)
Theorem failed_connect_leaves_no_session
  (login : login_behaviour) (ws : websocket_behaviour) (a a' : Agent) (c : connect_result) :
  reachable a ->
  connect_shoonya_broker login ws a = (Ok c, a') ->
  result_status c = "error" ->
  no_session a'.
Proof.
  intros Hreach. unfold connect_shoonya_broker.
  destruct (shoonya_api a) eqn:Hapi; simpl.
  2: { intros [= <- <-] _. exact (no_api_no_session a Hreach Hapi). }
  destruct (_is_connected a && websocket_connected a); [intros [= <- <-]; discriminate|].
  destruct login as [e|[response|]]; [| |discriminate].
  - intros [= <- <-] _. unfold no_session. simpl. auto.
  - destruct (negb _ && _).
    + destruct ws as [fired e|fired].
      * intros [= <- <-] _. unfold no_session. simpl. auto.
      * destruct (websocket_connected (foldl _ _ fired)) eqn:Hws;
          intros [= <- <-]; [discriminate|].
        intros _. unfold no_session. simpl. auto.
    + intros [= <- <-] _. unfold no_session. simpl. auto.
Qed.

End AgentFacts.

Section AgentRuns.
Import Py Agent Examples.
#[local] Existing Instance plain_validator.
#[local] Existing Instance repr.

Lemma failed_connect_leaves_no_session_witness :
  let a := step (SocketCallback SocketOpen) (new_agent true) in
  reachable a /\
  connect_shoonya_broker refused_login (StartReturns []) a =
    (Ok (LoginFailed (VStr "Invalid login credentials")),
     set_websocket_connected false (reset_login a)) /\
  result_status (LoginFailed (VStr "Invalid login credentials")) = "error" /\
  websocket_connected a = true /\
  no_session (set_websocket_connected false (reset_login a)).
Proof.
  cbv zeta.
  assert (Hreach : reachable (step (SocketCallback SocketOpen) (new_agent true)))
    by (apply reachable_step, reachable_new).
  split; [exact Hreach|]. split; [reflexivity|]. split; [reflexivity|].
  split; [reflexivity|].
  exact (failed_connect_leaves_no_session refused_login (StartReturns []) _ _ _
           Hreach eq_refl eq_refl).
Defined.

(** The scenario of connecting, subscribing to NSE|22, receiving a tick
    and unsubscribing.  Between the subscription and the first tick the
    resource holds a tick without any field for the key. *)
Example streaming_scenario :
  let a1 := step (ConnectTool accepted_login (StartReturns [SocketOpen])) (new_agent true) in
  let a2 := step (SubscribeTool ["NSE|22"] false) a1 in
  let a3 := step (MarketDataFeed feed_tick (dyadic 7 0)) a2 in
  let a4 := step (UnsubscribeTool ["NSE|22"] false) a3 in
  shoonya_user_token a1 = VStr "mock_token_xyz" /\
  websocket_connected a1 = true /\
  read_instrument "NSE|22" (live_market_data_resource a2) = Some empty_tick /\
  last_traded_price <$> read_instrument "NSE|22" (live_market_data_resource a3)
    = Some (Some (dyadic 247 (-1))) /\
  read_instrument "NSE|22" (live_market_data_resource a4) = None /\
  length (notified (live_market_data_resource a4)) = 3%nat.
Proof. cbv zeta. repeat split; reflexivity. Qed.

End AgentRuns.

(** * Further properties of the gateway *)

(** ** The bearer token *)

Section TokenFacts.
Import Py App Notions.









End TokenFacts.

(** ** Sessions *)

Section SessionFacts.
Import Py App Notions.
Context {W : World}.







End SessionFacts.

(** ** What the validation accepts *)

Section ValidationFacts.
Import Py App Notions.











End ValidationFacts.

(** ** Orders and the broker *)

Section OrderFacts.
Import Py App Notions.
Context {W : World}.






End OrderFacts.

(** ** Subscriptions and quotes *)

Section FeedFacts.
Import Py App Notions.
Context {W : World}.


















End FeedFacts.

(** ** Sample runs of the gateway *)

Section GatewaySamples.
Import Py App Notions Examples.
#[local] Existing Instance world.








End GatewaySamples.

(** ** Store keys *)

Section KeyFacts.
Import Py App Notions.
Context {W : World}.



End KeyFacts.

Section KeySamples.
Import Py App Notions Examples.
#[local] Existing Instance world.


(** Two instruments that differ in exchange and token share a key when an
    exchange holds an underscore. *)
Example instrument_keys_collide :
  let inst1 : gmap string pyval := {[ "exchange" := VStr "NSE"; "token" := VStr "X_1" ]} in
  let inst2 : gmap string pyval := {[ "exchange" := VStr "NSE_X"; "token" := VStr "1" ]} in
  instrument_key inst1 = instrument_key inst2.
Proof. reflexivity. Qed.

End KeySamples.

(** * Further properties of the resource *)

Section ResourceInvariants.
Import Py Agent Notions.
Context {V : Validator}.










End ResourceInvariants.

Section ResourceNotifications.
Import Py Agent Notions.
Context {V : Validator}.






End ResourceNotifications.

Section RoundTrip.
Import Py Agent Notions.
Context {V : Validator}.










End RoundTrip.

Section ResourceSamples.
Import Py Agent Notions Examples.
#[local] Existing Instance plain_validator.





End ResourceSamples.

(** * Further properties of the agent *)

Section FeedTracking.
Import Py Agent Notions.
Context {V : Validator} {R : Repr}.










End FeedTracking.

Section AgentInvariants.
Import Py Agent Notions.
Context {V : Validator} {R : Repr}.





End AgentInvariants.

Section MockApi.
Import Py Agent Notions Tools.
Context {V : Validator} {R : Repr}.




End MockApi.

Section AgentSamples.
Import Py Agent Notions Tools Examples.
#[local] Existing Instance plain_validator.
#[local] Existing Instance repr.




(** A login response without [susertoken]: the tool reports success, and
    the agent does not count as connected. *)
Example connected_without_token :
  let login := LoginReturns (Some {[ "stat" := VStr "Ok"; "uid" := VStr "test_uid" ]}) in
  let out := connect_shoonya_broker login (StartReturns [SocketOpen]) (new_agent true) in
  out.1 = Ok (ConnectedWithWebSocket (VStr "test_uid") VNone) /\
  result_status (ConnectedWithWebSocket (VStr "test_uid") VNone) = "success" /\
  _is_connected out.2 = false /\
  subscribe_market_feeds ["NSE|22"] false out.2 = out.2.
Proof. cbv zeta. repeat split; reflexivity. Qed.


End AgentSamples.

(** * The other tools *)

Section ToolFacts.
Import Py Agent Tools.










End ToolFacts.

Section ToolSamples.
Import Py Agent Tools Examples.
#[local] Existing Instance plain_validator.
#[local] Existing Instance repr.

(** An order book whose first entry is an order: the entry is returned with
    the rest, and an entry without order number is left out. *)
Example order_book_keeps_the_first_entry :
  let a := (connect_shoonya_broker accepted_login (StartReturns [SocketOpen])
              (new_agent true)).2 in
  let first : gmap string pyval := {[ "stat" := VStr "Ok"; "norenordno" := VStr "1" ]} in
  let second : gmap string pyval := {[ "stat" := VStr "Ok" ]} in
  let third : gmap string pyval := {[ "norenordno" := VStr "3" ]} in
  get_order_book (fun _ => Returns (RList [first; second; third])) a =
    ListSuccess [first; third].
Proof. reflexivity. Qed.

End ToolSamples.
